(** * FinSmart: ledger, budgets, projections and the weekly planner

    A shallow embedding of the computations of the FinSmart dashboard
    (Investment_Calculator.py, Expense_tracker.py, budget_manager.py,
    data_visualization.py, app.py) and the properties its specification
    states about them.

    Numbers.  The amounts, rates and percentages of the program are Python
    floats.  Two models are used.  Where a statement is about the formula,
    the comparison or the branch the code evaluates, floats are exact
    rationals ([Q]): equality of amounts is [==] ([Qeq]) wherever two
    different expressions are compared, and [=] where the code stores the
    very same value.  Where a statement depends on how a result is rounded
    (the order in which a group-by adds its rows, the equal split and the
    tolerance test of the weekly planner), floats are IEEE-754 doubles
    ([float]) and every operation rounds as the machine does.  Division by a
    float that is zero raises [ZeroDivisionError] in Python; where the
    divisor is not a non-zero literal and is not guarded by the code, the
    model makes that explicit ([Py.div]). *)

From Stdlib Require Import PrimFloat.
From Stdlib Require Import QArith Qabs Qminmax Qpower Qfield Lqa ZArith Lia.
From stdpp Require Import gmap strings list fin_maps sorting.

Set Warnings "-inexact-float".

Open Scope Q_scope.

(** ** Python values and operators *)

Module Py.

(** Exceptions the modelled code can raise. *)
Inductive exn : Type :=
  | ZeroDivisionError.

(** The outcome of an expression that may raise. *)
Inductive outcome (A : Type) : Type :=
  | Returns (a : A)
  | Raises (e : exn).

Arguments Returns {A} a.
Arguments Raises {A} e.

Definition bind {A B : Type} (m : outcome A) (k : A -> outcome B) : outcome B :=
  match m with
  | Returns a => k a
  | Raises e => Raises e
  end.

(** [x / y] on floats. *)
Definition div (x y : Q) : outcome Q :=
  if Qeq_bool y 0 then Raises ZeroDivisionError else Returns (x / y).

(** [x < y], [x <= y], [x > y], [x >= y] on floats. *)
Definition lt (x y : Q) : bool := negb (Qle_bool y x).
Definition le (x y : Q) : bool := Qle_bool x y.
Definition gt (x y : Q) : bool := lt y x.
Definition ge (x y : Q) : bool := le y x.

(** [min(a, b)]: the first argument unless the second is smaller. *)
Definition min (a b : Q) : Q := if lt b a then b else a.

(** [abs(x)]. *)
Definition abs (x : Q) : Q := Qabs x.

(** [sum(xs)], also pandas' [Series.sum()]: a left fold from 0. *)
Definition sum (xs : list Q) : Q := foldl Qplus 0 xs.

(** Truth value of a string and of a list: empty is false. *)
Definition truthy_str (s : string) : bool :=
  match s with
  | EmptyString => false
  | _ => true
  end.

Definition truthy_list {A : Type} (l : list A) : bool :=
  match l with
  | [] => false
  | _ => true
  end.

End Py.

Notation "'let*' x ':=' m 'in' k" := (Py.bind m (fun x => k))
  (at level 10, x name, m at level 200, k at level 200).

#[global] Instance Q_inhabited : Inhabited Q := populate 0.

#[global] Instance Qlt_decision (x y : Q) : Decision (x < y) :=
  decide (Qnum x * QDen y < Qnum y * QDen x)%Z.

(** ** Sums in double precision *)

Module Float64.

(** Additions performed one after the other from [0.0], each of them
    rounded: Python's [total += x] in a loop. *)
Definition sum (xs : list float) : float := foldl PrimFloat.add 0%float xs.

(** Kahan's compensated summation, the way the group-by kernel of pandas
    adds the rows of one group: the rounding error of each addition is
    carried into the next one. *)
Definition kahan_step (acc : float * float) (val : float) : float * float :=
  let (sumx, compensation) := acc in
  let y := (val - compensation)%float in
  let t := (sumx + y)%float in
  (t, (t - sumx - y)%float).

Definition kahan_sum (xs : list float) : float :=
  (foldl kahan_step (0%float, 0%float) xs).1.

End Float64.

(** ** Investment_Calculator.py *)

Module InvestmentCalculator.

(** The data frame returned by [calculate_sip_returns], column by column. *)
Module Sip.
Record frame : Type := {
  Month : list nat;
  Total_Investment : list Q;
  Investment_Value : list Q
}.
End Sip.

(** The data frame returned by [calculate_lumpsum_returns]. *)
Module Lumpsum.
Record frame : Type := {
  Year : list nat;
  Investment_Value : list Q
}.
End Lumpsum.

Section Projections.

(** [x ** y] for a float exponent that is not a whole number.  The result is
    irrational in general, so the operator is kept abstract; nothing below
    depends on what it computes. *)
Variable float_pow : Q -> Q -> Q.

(** [(1 + annual_return_rate/100) ** (1/12) - 1] *)
Definition monthly_rate_of (annual_return_rate : Q) : Q :=
  float_pow (1 + annual_return_rate / 100) (1 / 12) - 1.

(** One iteration of the loop [for month in range(total_months)] on the two
    arrays [total_investment] and [investment_value]. *)
Definition sip_month (monthly_investment monthly_rate : Q)
    (arrays : list Q * list Q) (month : nat) : list Q * list Q :=
  let (total_investment, investment_value) := arrays in
  match month with
  | O =>
      (<[month := monthly_investment]> total_investment,
       <[month := monthly_investment]> investment_value)
  | S prev =>
      (<[month := total_investment !!! prev + monthly_investment]> total_investment,
       <[month := investment_value !!! prev * (1 + monthly_rate) + monthly_investment]>
          investment_value)
  end.

Definition calculate_sip_returns (monthly_investment annual_return_rate : Q)
    (time_years : nat) : Sip.frame :=
  let monthly_rate := monthly_rate_of annual_return_rate in
  let total_months := (time_years * 12)%nat in
  let zeros := replicate total_months 0 in
  let (total_investment, investment_value) :=
    foldl (sip_month monthly_investment monthly_rate) (zeros, zeros)
          (seq 0 total_months) in
  {| Sip.Month := seq 1 total_months;
     Sip.Total_Investment := total_investment;
     Sip.Investment_Value := investment_value |}.

End Projections.

(** One iteration of [for i, year in enumerate(years)]. *)
Definition lumpsum_year (investment_amount annual_return_rate : Q)
    (investment_value : list Q) (iy : nat * nat) : list Q :=
  let (i, year) := iy in
  <[i := investment_amount * (1 + annual_return_rate / 100) ^ Z.of_nat year]>
    investment_value.

Definition calculate_lumpsum_returns (investment_amount annual_return_rate : Q)
    (time_years : nat) : Lumpsum.frame :=
  let years := seq 0 (time_years + 1) in
  let investment_value := replicate (length years) 0 in
  {| Lumpsum.Year := years;
     Lumpsum.Investment_Value :=
       foldl (lumpsum_year investment_amount annual_return_rate)
             investment_value (imap pair years) |}.

(** The two inflation lines of the SIP summary (lines 142-143):
    [real_return_rate] and [inflation_adj_final]. *)
Definition real_return_rate (annual_return_rate inflation_rate : Q) : Py.outcome Q :=
  let* ratio := Py.div (1 + annual_return_rate / 100) (1 + inflation_rate / 100) in
  Py.Returns (ratio - 1).

Definition inflation_adj_final (monthly_investment annual_return_rate : Q)
    (time_years : nat) (inflation_rate : Q) : Py.outcome Q :=
  let* rrr := real_return_rate annual_return_rate inflation_rate in
  let* annuity := Py.div ((1 + rrr) ^ Z.of_nat (time_years * 12) - 1) rrr in
  Py.Returns (monthly_investment * annuity * (1 + rrr)).

End InvestmentCalculator.


(** ** Calendar dates *)

Module Calendar.

(** A [datetime.date], by its proleptic Gregorian ordinal
    ([date.toordinal()]: day 1 is 0001-01-01). *)
Definition date : Type := Z.

(** Year and month of an ordinal (the civil-from-days computation on
    400-year eras that start on 1 March). *)
Definition civil (d : date) : Z * Z * Z :=
  let z := (d + 305)%Z in
  let era := (z / 146097)%Z in
  let doe := (z - era * 146097)%Z in
  let yoe := ((doe - doe / 1460 + doe / 36524 - doe / 146096) / 365)%Z in
  let doy := (doe - (365 * yoe + yoe / 4 - yoe / 100))%Z in
  let mp := ((5 * doy + 2) / 153)%Z in
  let day := (doy - (153 * mp + 2) / 5 + 1)%Z in
  let month := (if (mp <? 10)%Z then mp + 3 else mp - 9)%Z in
  let year := (yoe + era * 400 + (if (month <=? 2)%Z then 1 else 0))%Z in
  (year, month, day).

Definition year (d : date) : Z := (civil d).1.1.
Definition month (d : date) : Z := (civil d).1.2.

(** [d - pd.Timedelta(days=n)] *)
Definition minus_days (d : date) (n : Z) : date := (d - n)%Z.

End Calendar.

(** ** Python dictionaries with string keys *)

Module Dict.

(** A [dict] keeps its keys in insertion order: an association list in which
    [set] overwrites in place or appends. *)
Abbreviation t V := (list (string * V)).

Definition empty {V : Type} : t V := [].

Fixpoint get {V : Type} (d : t V) (k : string) : option V :=
  match d with
  | [] => None
  | (k', v) :: d' => if decide (k = k') then Some v else get d' k
  end.

(** [d.get(k, dflt)] *)
Definition get_default {V : Type} (d : t V) (k : string) (dflt : V) : V :=
  default dflt (get d k).

(** [d[k] = v] *)
Fixpoint set {V : Type} (d : t V) (k : string) (v : V) : t V :=
  match d with
  | [] => [(k, v)]
  | (k', v') :: d' =>
      if decide (k = k') then (k, v) :: d' else (k', v') :: set d' k v
  end.

Definition items {V : Type} (d : t V) : list (string * V) := d.
Definition keys {V : Type} (d : t V) : list string := d.*1.
Definition values {V : Type} (d : t V) : list V := d.*2.

End Dict.

(** ** The session store (app.py, lines 19-26) *)

Module Session.

(** A row of the [expenses] data frame. *)
Record expense : Type := {
  date : Calendar.date;
  amount : Q;
  category : string;
  description : string
}.

(** [st.session_state]: [budget_categories] is absent until the budget page
    is rendered for the first time. *)
Record state : Type := {
  expenses : list expense;
  budgets : Dict.t Q;
  budget_categories : option (list string)
}.

Definition init : state :=
  {| expenses := []; budgets := Dict.empty; budget_categories := None |}.

(** The category registry as a list (nothing registered while absent). *)
Definition registry (s : state) : list string :=
  default [] (budget_categories s).

(** A single write to the session store. *)
Inductive mutation : Type :=
  | Registry_init (cs : list string)
  | Registry_append (c : string)
  | Budget_set (c : string) (v : Q)
  | Expenses_append (e : expense).

Definition apply (s : state) (m : mutation) : state :=
  match m with
  | Registry_init cs =>
      {| expenses := expenses s; budgets := budgets s;
         budget_categories := Some cs |}
  | Registry_append c =>
      {| expenses := expenses s; budgets := budgets s;
         budget_categories := Some (registry s ++ [c]) |}
  | Budget_set c v =>
      {| expenses := expenses s; budgets := Dict.set (budgets s) c v;
         budget_categories := budget_categories s |}
  | Expenses_append e =>
      {| expenses := expenses s ++ [e]; budgets := budgets s;
         budget_categories := budget_categories s |}
  end.

(** The writes of a handler, performed in program order. *)
Definition run (s : state) (ms : list mutation) : state := foldl apply s ms.

End Session.

(** ** Expense_tracker.py *)

Module ExpenseTracker.
Import Session.

(** The options of the category select box (lines 24-28). *)
Definition categories : list string :=
  ["Food & Drinks"; "Groceries"; "Transportation";
   "Entertainment"; "Shopping"; "Bills & Utilities";
   "Education"; "Housing & Rent"; "Health"; "Other"]%string.

(** The submit handler of the expense form (lines 34-45): one row is built
    from the widget values and concatenated to the frame. *)
Definition add_expense (date : Calendar.date) (amount : Q)
    (category description : string) : list mutation :=
  [Expenses_append
     {| date := date; amount := amount; category := category;
        description := description |}].

(** The radio choice "Filter by date". *)
Inductive date_filter : Type :=
  | All_time
  | This_month
  | Last_7_days
  | Custom (start_date end_date : Calendar.date).

(** [Series.unique().tolist()]: first occurrences, in order. *)
Fixpoint unique_from (seen : list string) (l : list string) : list string :=
  match l with
  | [] => []
  | x :: l' =>
      if decide (x ∈ seen) then unique_from seen l'
      else x :: unique_from (x :: seen) l'
  end.

Definition unique (l : list string) : list string := unique_from [] l.

(** The options and the default of the category multi-select (line 87). *)
Definition all_categories (df : list expense) : list string :=
  unique (category <$> df).

(** Lines 97-114. *)
Definition apply_date_filter (today : Calendar.date) (f : date_filter)
    (df : list expense) : list expense :=
  match f with
  | All_time => df
  | This_month =>
      filter (λ e, Calendar.month (date e) = Calendar.month today
                   ∧ Calendar.year (date e) = Calendar.year today) df
  | Last_7_days =>
      let last_week := Calendar.minus_days today 7 in
      filter (λ e, (last_week ≤ date e)%Z) df
  | Custom start_date end_date =>
      filter (λ e, (start_date ≤ date e)%Z ∧ (date e ≤ end_date)%Z) df
  end.

(** Lines 116-120: the mask is applied only when the selection is truthy. *)
Definition apply_category_filter (selected_categories : list string)
    (df : list expense) : list expense :=
  if Py.truthy_list selected_categories
  then filter (λ e, category e ∈ selected_categories) df
  else df.

(** Lines 95-120. *)
Definition filtered_expenses (today : Calendar.date) (f : date_filter)
    (selected_categories : list string) (df : list expense) : list expense :=
  apply_category_filter selected_categories (apply_date_filter today f df).

(** [df['amount'].sum()] *)
Definition total (df : list expense) : Q := Py.sum (amount <$> df).

(** What the history tab shows (lines 67-128). *)
Inductive history_view : Type :=
  | No_expenses_yet
  | No_match
  | Listing (rows : list expense) (total_filtered : Q).

Definition expense_history (today : Calendar.date) (f : date_filter)
    (selected_categories : list string) (s : state) : history_view :=
  match expenses s with
  | [] => No_expenses_yet
  | _ =>
      match filtered_expenses today f selected_categories (expenses s) with
      | [] => No_match
      | rows => Listing rows (total rows)
      end
  end.

End ExpenseTracker.

(** ** data_visualization.py *)

Module DataVisualization.
Import Session.

(** [df.groupby('category')['amount'].sum()] over exact rationals: one entry
    per category that occurs, holding the sum of its rows.  It serves the
    chart of budget against actual spending, of which only the presence of
    an entry and the total of a single row are used below; what depends on
    the rounding of the additions is stated on
    [CategorySums.groupby_category_sum]. *)
Definition groupby_category_sum (df : list expense) : gmap string Q :=
  foldl (λ acc e, <[category e := default 0 (acc !! category e) + amount e]> acc)
        ∅ df.

End DataVisualization.

(** ** data_visualization.py: the group-by in double precision *)

Module CategorySums.

(** The amounts of the rows of category [c], in row order.  Only the two
    columns the group-by reads are kept: [category] and [amount]. *)
Definition group (c : string) (df : list (string * float)) : list float :=
  (filter (λ r, r.1 = c) df).*2.

(** [df.groupby('category')['amount'].sum()] on doubles: the rows are split
    into one group per category that occurs, and [series_sum] adds the
    amounts of a group.  How the library adds them is not in the source, so
    it is a parameter: [Float64.sum] and [Float64.kahan_sum] are the two
    candidates. *)
Definition groupby_category_sum (series_sum : list float -> float)
    (df : list (string * float)) : gmap string float :=
  list_to_map ((λ r, (r.1, series_sum (group r.1 df))) <$> df).

End CategorySums.

(** ** budget_manager.py *)

Module BudgetManager.
Import Session.

(** Lines 11-15. *)
Definition default_categories : list string :=
  ["Food & Drinks"; "Groceries"; "Transportation";
   "Entertainment"; "Shopping"; "Bills & Utilities";
   "Education"; "Housing & Rent"; "Health"; "Other"]%string.

(** Lines 10-15: the registry is seeded on the first rendering. *)
Definition init_categories (s : state) : list mutation :=
  match budget_categories s with
  | None => [Registry_init default_categories]
  | Some _ => []
  end.

(** The widget values of one rendering of the budget form: the number input
    of each category (key [budget_<category>]), the custom category, its
    budget and the submit button. *)
Record form_input : Type := {
  new_budget : string -> Q;
  new_category : string;
  new_category_budget : Q;
  submit_button : bool
}.

(** Lines 81-86: the custom category. *)
Definition save_custom_category (inp : form_input) (s : state) : list mutation :=
  if submit_button inp then
    if Py.truthy_str (new_category inp)
       && bool_decide (new_category inp ∉ registry s)
    then [Registry_append (new_category inp);
          Budget_set (new_category inp) (new_category_budget inp)]
    else []
  else [].

(** Lines 44-88: the loop over the registered categories (each budget is
    written back on every rendering), then the custom category. *)
Definition budget_form (inp : form_input) (s : state) : list mutation :=
  let categories_to_budget := registry s in
  ((λ category, Budget_set category (new_budget inp category))
     <$> categories_to_budget)
  ++ save_custom_category inp s.

(** The writes of tab 1, from the top of [show_budget_manager]. *)
Definition set_budgets (inp : form_input) (s : state) : state :=
  let s1 := run s (init_categories s) in
  run s1 (budget_form inp s1).

(** The budget period select box. *)
Inductive budget_period : Type :=
  | Monthly
  | Weekly.

(** [date.weekday()]: Monday is 0. *)
Definition weekday (d : Calendar.date) : Z := ((d + 6) mod 7)%Z.

(** Lines 110-130: the expenses of the current period. *)
Definition period_expenses (period : budget_period) (today : Calendar.date)
    (df : list expense) : list expense :=
  match period with
  | Monthly =>
      filter (λ e, Calendar.month (date e) = Calendar.month today
                   ∧ Calendar.year (date e) = Calendar.year today) df
  | Weekly =>
      let start_of_week := Calendar.minus_days today (weekday today) in
      filter (λ e, (start_of_week ≤ date e)%Z) df
  end.

(** Lines 136-140. *)
Definition category_spending (registered : list string)
    (monthly_expenses : list expense) : Dict.t Q :=
  foldl (λ acc c,
           let category_expenses := filter (λ e, category e = c) monthly_expenses in
           let total_spent :=
             match category_expenses with
             | [] => 0
             | _ => ExpenseTracker.total category_expenses
             end in
           Dict.set acc c total_spent)
        Dict.empty registered.

(** The colour chosen for a category (lines 149-153). *)
Inductive color : Type :=
  | green
  | orange
  | red.

(** The message under the progress bar (lines 160-164). *)
Inductive alert : Type :=
  | Over_budget_by (over : Q)
  | Only_left (remaining : Q).

(** What is displayed for one category. *)
Record status_row : Type := {
  row_category : string;
  row_spent : Q;
  row_budget : Q;
  row_percentage : Q;
  row_color : color;
  row_alert : option alert
}.

(** Line 146.  The division is under the test [budget > 0], so it cannot
    raise. *)
Definition percentage_of (spent budget : Q) : Q :=
  if Py.gt budget 0 then Py.min 100 (spent / budget * 100) else 0.

Definition color_of (percentage : Q) : color :=
  if Py.ge percentage 80 then red
  else if Py.ge percentage 60 then orange
  else green.

Definition alert_of (spent budget : Q) : option alert :=
  let remaining := budget - spent in
  if Py.lt remaining 0 then Some (Over_budget_by (Py.abs remaining))
  else if Py.lt remaining (budget * 0.2) then Some (Only_left remaining)
  else None.

(** The body of the loop of lines 143-166 for one item of [budgets]. *)
Definition status_of (spending : Dict.t Q) (item : string * Q) : option status_row :=
  let (category, budget) := item in
  if Py.gt budget 0 then
    let spent := Dict.get_default spending category 0 in
    let percentage := percentage_of spent budget in
    Some {| row_category := category; row_spent := spent; row_budget := budget;
            row_percentage := percentage; row_color := color_of percentage;
            row_alert := alert_of spent budget |}
  else None.

(** Lines 143-166. *)
Definition budget_status (allocation : Dict.t Q) (spending : Dict.t Q)
    : list status_row :=
  omap (status_of spending) (Dict.items allocation).

(** Tab 2 (lines 106-166): [None] is the hint to set budgets first. *)
Definition budget_analysis (period : budget_period) (today : Calendar.date)
    (s : state) : option (list status_row) :=
  if negb (Py.truthy_list (budgets s))
     || forallb (λ v, Qeq_bool v 0) (Dict.values (budgets s))
  then None
  else
    let monthly_expenses := period_expenses period today (expenses s) in
    Some (budget_status (budgets s)
            (category_spending (registry s) monthly_expenses)).

End BudgetManager.

(** ** app.py: the weekly spending planner (lines 97-149) *)

Module SpendingPlanner.

Definition days_of_week : list string :=
  ["Monday"; "Tuesday"; "Wednesday"; "Thursday"; "Friday"; "Saturday";
   "Sunday"]%string.

(** [[1/7] * 7] *)
Definition default_distribution : list float := replicate 7 (1 / 7)%float.

(** Lines 124-134: the value of the number input of each day is appended to
    [percentages] and added to [total_percentage], one addition per day. *)
Definition collect (pct : string -> float) : list float * float :=
  foldl (λ acc day,
           let (percentages, total_percentage) := acc : list float * float in
           (percentages ++ [pct day], (total_percentage + pct day)%float))
        ([], 0%float) days_of_week.

(** Lines 116-146.  The test of line 140 is
    [abs(total_percentage - 100.0) > 0.1]. *)
Definition distribution (custom_dist : bool) (pct : string -> float)
    : list float :=
  if custom_dist then
    let (percentages, total_percentage) := collect pct in
    if (0.1 <? PrimFloat.abs (total_percentage - 100.0))%float
    then default_distribution
    else (λ p, p / 100)%float <$> percentages
  else default_distribution.

(** Line 149. *)
Definition daily_amounts (pocket_money : float) (dist : list float)
    : list float :=
  (λ d, pocket_money * d)%float <$> dist.

Definition spending_plan (pocket_money : float) (custom_dist : bool)
    (pct : string -> float) : list float :=
  daily_amounts pocket_money (distribution custom_dist pct).

End SpendingPlanner.

(** ** The pages as transitions of the session store *)

Module App.
Import Session.

(** What the user can do to the store: submit the expense form, or render
    the budget page with some widget values. *)
Inductive event : Type :=
  | Submit_expense (date : Calendar.date) (amount : Q)
      (category description : string)
  | Render_budget_page (inp : BudgetManager.form_input).

(** The writes an event causes, in program order. *)
Definition handler (ev : event) (s : state) : list mutation :=
  match ev with
  | Submit_expense date amount category description =>
      ExpenseTracker.add_expense date amount category description
  | Render_budget_page inp =>
      let seeded := BudgetManager.init_categories s in
      seeded ++ BudgetManager.budget_form inp (run s seeded)
  end.

(** What the widgets guarantee about their values: every amount comes from
    a [number_input] with [min_value=0.0], the category of an expense from a
    select box over [ExpenseTracker.categories]. *)
Definition from_widgets (ev : event) : Prop :=
  match ev with
  | Submit_expense _ amount category _ =>
      0 <= amount ∧ category ∈ ExpenseTracker.categories
  | Render_budget_page inp =>
      (∀ c, 0 <= BudgetManager.new_budget inp c)
      ∧ 0 <= BudgetManager.new_category_budget inp
  end.

Inductive reachable : state -> Prop :=
  | reachable_init : reachable init
  | reachable_step s ev :
      reachable s -> from_widgets ev -> reachable (run s (handler ev s)).

(** Every key of the allocation is a registered category. *)
Definition registry_invariant (s : state) : Prop :=
  ∀ c, c ∈ Dict.keys (budgets s) → c ∈ registry s.

(** Every recorded amount and every budget is at least zero. *)
Definition amounts_nonneg (s : state) : Prop :=
  (∀ e, e ∈ expenses s → 0 <= amount e)
  ∧ (∀ c v, (c, v) ∈ Dict.items (budgets s) → 0 <= v).

End App.

(** ** The recurrences of the specification *)

Module Spec.

(** Month 1 holds the contribution; every later month grows the previous
    value by the monthly rate and then adds the contribution. *)
Fixpoint sip_value (contribution r : Q) (n : nat) : Q :=
  match n with
  | O => contribution
  | S n' => sip_value contribution r n' * (1 + r) + contribution
  end.

(** Cumulative contribution: one more contribution per month. *)
Fixpoint sip_invested (contribution : Q) (n : nat) : Q :=
  match n with
  | O => contribution
  | S n' => sip_invested contribution n' + contribution
  end.

End Spec.

(** ** Loop and write invariants *)

Module Invariant.
Import Session.

(** The two arrays of [calculate_sip_returns] after the first [k]
    iterations: full length, and the first [k] cells filled in. *)
Definition sip_loop (monthly_investment monthly_rate : Q) (total_months k : nat)
    (arrays : list Q * list Q) : Prop :=
  length arrays.1 = total_months ∧ length arrays.2 = total_months ∧
  ∀ n, (n < k)%nat →
    arrays.1 !! n = Some (Spec.sip_invested monthly_investment n) ∧
    arrays.2 !! n = Some (Spec.sip_value monthly_investment monthly_rate n).

(** The array of [calculate_lumpsum_returns] after the first [k]
    iterations. *)
Definition lumpsum_loop (investment_amount annual_return_rate : Q)
    (points k : nat) (investment_value : list Q) : Prop :=
  length investment_value = points ∧
  ∀ y, (y < k)%nat →
    investment_value !! y
    = Some (investment_amount * (1 + annual_return_rate / 100) ^ Z.of_nat y).

(** When a write is harmless for the registry invariant: the registry is
    assigned only while it is absent, and a budget is set only for a
    registered category. *)
Definition registered_write (s : state) (m : mutation) : Prop :=
  match m with
  | Registry_init _ => budget_categories s = None
  | Budget_set c _ => c ∈ registry s
  | Registry_append _ | Expenses_append _ => True
  end.

(** Every write of a script is harmless in the state it is performed in. *)
Fixpoint guarded (s : state) (ms : list mutation) : Prop :=
  match ms with
  | [] => True
  | m :: ms' => registered_write s m ∧ guarded (apply s m) ms'
  end.

(** A write that stores no amount below zero. *)
Definition nonneg_write (m : mutation) : Prop :=
  match m with
  | Budget_set _ v => 0 <= v
  | Expenses_append e => 0 <= amount e
  | Registry_init _ | Registry_append _ => True
  end.

End Invariant.

(** ** Investment_Calculator.py: the summaries, the tables and a chart *)

Module InvestmentSummary.
Import InvestmentCalculator.

(** [series.iloc[-1]]: [None] stands for the [IndexError] of an empty
    series. *)
Definition iloc_last (series : list Q) : option Q := last series.

(** Division of a numpy [float64] (a cell of a frame, or a whole column): a
    zero divisor gives [inf] or [nan] and a warning, not an exception.
    [None] stands for that non-finite result. *)
Definition np_div (x y : Q) : option Q :=
  if Qeq_bool y 0 then None else Some (x / y).

(** Lines 137-139: the key metrics of the SIP summary. *)
Record sip_metrics : Type := {
  total_invested : Q;
  final_value : Q;
  wealth_gained : Q
}.

Definition sip_summary (float_pow : Q -> Q -> Q)
    (monthly_investment annual_return_rate : Q) (time_years : nat)
    : option sip_metrics :=
  let sip_results :=
    calculate_sip_returns float_pow monthly_investment annual_return_rate
      time_years in
  let total_invested :=
    monthly_investment * inject_Z (Z.of_nat time_years) * 12 in
  final_value ← iloc_last (Sip.Investment_Value sip_results);
  Some {| total_invested := total_invested;
          final_value := final_value;
          wealth_gained := final_value - total_invested |}.

(** Lines 136-165: what the SIP summary shows.  The statements run in
    program order: [iloc[-1]] on line 138 fails on an empty frame, then each
    of the two inflation lines 142-143 can divide by zero, and only then are
    the metrics displayed.  The percentage under "Wealth Gained" (line 156)
    divides a numpy float, which does not raise. *)
Inductive sip_summary_view : Type :=
  | Index_error
  | Zero_division_error
  | Sip_metrics (m : sip_metrics) (delta : option Q)
      (inflation_adj_final real_return_rate : Q).

Definition show_sip_summary (float_pow : Q -> Q -> Q)
    (monthly_investment annual_return_rate : Q) (time_years : nat)
    (inflation_rate : Q) : sip_summary_view :=
  match sip_summary float_pow monthly_investment annual_return_rate time_years with
  | None => Index_error
  | Some m =>
      match real_return_rate annual_return_rate inflation_rate with
      | Py.Raises _ => Zero_division_error
      | Py.Returns rrr =>
          match inflation_adj_final monthly_investment annual_return_rate
                  time_years inflation_rate with
          | Py.Raises _ => Zero_division_error
          | Py.Returns adj =>
              Sip_metrics m
                (ratio ← np_div (wealth_gained m) (total_invested m);
                 Some (ratio * 100))
                adj rrr
          end
      end
  end.

(** The rows of the SIP frame. *)
Definition sip_rows (df : Sip.frame) : list (nat * Q * Q) :=
  zip (zip (Sip.Month df) (Sip.Total_Investment df)) (Sip.Investment_Value df).

(** Lines 222-226: the table "View detailed growth data" of the SIP tab. *)
Module Yearly.
Record row : Type := {
  Year : nat;
  Total_Investment : Q;
  Investment_Value : Q;
  Wealth_Gained : Q;
  Returns_Percentage : option Q
}.
End Yearly.

Definition yearly_row (r : nat * Q * Q) : Yearly.row :=
  let '(month, total_investment, investment_value) := r in
  let wealth_gained := investment_value - total_investment in
  {| Yearly.Year := month / 12;
     Yearly.Total_Investment := total_investment;
     Yearly.Investment_Value := investment_value;
     Yearly.Wealth_Gained := wealth_gained;
     Yearly.Returns_Percentage :=
       ratio ← np_div wealth_gained total_investment; Some (ratio * 100) |}.

Definition yearly_data (sip_results : Sip.frame) : list Yearly.row :=
  yearly_row
    <$> filter (λ r : nat * Q * Q, (r.1.1 mod 12 = 0)%nat) (sip_rows sip_results).

(** Lines 377-380: the table of the lump-sum tab. *)
Module Growth.
Record row : Type := {
  Year : nat;
  Investment_Value : Q;
  Initial_Investment : Q;
  Wealth_Gained : Q;
  Returns_Percentage : option Q
}.
End Growth.

Definition growth_row (initial_investment : Q) (r : nat * Q) : Growth.row :=
  let (year, investment_value) := r in
  let wealth_gained := investment_value - initial_investment in
  {| Growth.Year := year;
     Growth.Investment_Value := investment_value;
     Growth.Initial_Investment := initial_investment;
     Growth.Wealth_Gained := wealth_gained;
     Growth.Returns_Percentage :=
       ratio ← np_div wealth_gained initial_investment; Some (ratio * 100) |}.

Definition growth_table (lumpsum_results : Lumpsum.frame)
    (initial_investment : Q) : list Growth.row :=
  growth_row initial_investment
    <$> zip (Lumpsum.Year lumpsum_results)
            (Lumpsum.Investment_Value lumpsum_results).

End InvestmentSummary.

(** ** budget_manager.py: the allocation view and the overall summary *)

Module BudgetSummary.
Import Session.

(** Line 95: [{k: v for k, v in budgets.items() if v > 0}]. *)
Definition active_budgets (allocation : Dict.t Q) : Dict.t Q :=
  filter (λ item : string * Q, Py.gt item.2 0 = true) (Dict.items allocation).

(** Lines 169-184.  [delta] is the percentage shown under "Remaining";
    [None] is the literal "0%" of the branch without a budget. *)
Record overall : Type := {
  total_budget : Q;
  total_spent : Q;
  remaining : Q;
  delta : option Q
}.

Definition overall_summary (allocation spending : Dict.t Q) : overall :=
  let total_budget := Py.sum (Dict.values allocation) in
  let total_spent := Py.sum (Dict.values spending) in
  let remaining := total_budget - total_spent in
  {| total_budget := total_budget;
     total_spent := total_spent;
     remaining := remaining;
     delta := if Py.gt total_budget 0
              then Some (remaining / total_budget * 100)
              else None |}.

End BudgetSummary.

(** ** data_visualization.py: budget against actual spending *)

Module Charts.
Import Session.

(** Lines 155-170 of [plot_budget_vs_actual]: the rows of [comparison_df]
    (category, budget, actual), in the order of the allocation. *)
Definition comparison_rows (allocation : Dict.t Q)
    (category_expenses : gmap string Q) : list (string * Q * Q) :=
  omap (λ item : string * Q,
          let (category, budget) := item in
          if Py.gt budget 0
          then Some (category, budget, default 0 (category_expenses !! category))
          else None)
       (Dict.items allocation).

(** The order of [sort_values('Budget', ascending=False)]. *)
Definition by_budget_descending (r1 r2 : string * Q * Q) : Prop :=
  r2.1.2 <= r1.1.2.

#[global] Instance by_budget_descending_dec r1 r2 :
    Decision (by_budget_descending r1 r2) :=
  decide (Qnum r2.1.2 * QDen r1.1.2 ≤ Qnum r1.1.2 * QDen r2.1.2)%Z.

(** [plot_budget_vs_actual] (lines 134-173).  [None] is the early return of
    lines 137-139; [current_month] and [current_year] are the two readings of
    the clock on lines 142-143; the rows are those of [comparison_df] after
    the sort of line 173.  pandas may order rows with equal budgets either
    way; the model sorts by merging, and nothing proved below depends on the
    order among equal budgets. *)
Definition plot_budget_vs_actual (current_month current_year : Z) (s : state)
    : option (list (string * Q * Q)) :=
  if negb (Py.truthy_list (expenses s)) || negb (Py.truthy_list (budgets s))
  then None
  else
    let monthly_expenses :=
      filter (λ e, Calendar.month (date e) = current_month
                   ∧ Calendar.year (date e) = current_year) (expenses s) in
    let category_expenses :=
      DataVisualization.groupby_category_sum monthly_expenses in
    Some (merge_sort by_budget_descending
            (comparison_rows (budgets s) category_expenses)).

End Charts.

(** ** app.py: the dashboard (lines 42-66) *)

Module Dashboard.
Import Session.

Record metrics : Type := {
  total_expenses : Q;
  monthly_expenses : Q;
  today_expenses : Q
}.

(** [current_month], [current_year] and [today] are the three readings of
    the clock on lines 52, 53 and 61.  [None]: no expense yet, the page shows
    a hint instead of the metrics. *)
Definition summary (current_month current_year : Z) (today : Calendar.date)
    (s : state) : option metrics :=
  match expenses s with
  | [] => None
  | df =>
      Some {| total_expenses := ExpenseTracker.total df;
              monthly_expenses :=
                ExpenseTracker.total
                  (filter (λ e, Calendar.month (date e) = current_month
                                ∧ Calendar.year (date e) = current_year)
                          df);
              today_expenses :=
                ExpenseTracker.total (filter (λ e, date e = today) df) |}
  end.

End Dashboard.

(** ** Expense_tracker.py: the table of the history tab (lines 134-147) *)

Module ExpenseDetails.
Import Session.

(** The order of [sort_values(by='date', ascending=False)]: most recent
    first. *)
Definition by_date_descending (e1 e2 : expense) : Prop :=
  (date e2 ≤ date e1)%Z.

#[global] Instance by_date_descending_dec e1 e2 :
    Decision (by_date_descending e1 e2) :=
  decide (date e2 ≤ date e1)%Z.

(** The rows of [display_df], [None] when no table is shown.  Rows of the
    same date may come in either order; the model sorts by merging, and
    nothing proved below depends on the order among equal dates. *)
Definition display_df (today : Calendar.date) (f : ExpenseTracker.date_filter)
    (selected_categories : list string) (s : state) : option (list expense) :=
  match ExpenseTracker.expense_history today f selected_categories s with
  | ExpenseTracker.Listing rows _ => Some (merge_sort by_date_descending rows)
  | _ => None
  end.

End ExpenseDetails.

(** ** Orders and shapes of the session store *)

Module Store.
Import Session.

(** The ledger, the registry and the keys of the allocation of [s] are
    still there in [s'], in front: nothing was cut, edited or reordered. *)
Definition extends (s s' : state) : Prop :=
  expenses s `prefix_of` expenses s'
  ∧ registry s `prefix_of` registry s'
  ∧ Dict.keys (budgets s) `prefix_of` Dict.keys (budgets s').

(** The allocation after the loop of the budget form: [d[c] = f c] for each
    [c] of [cs], in turn. *)
Definition write_all (f : string -> Q) (cs : list string) (d : Dict.t Q)
    : Dict.t Q :=
  foldl (λ d c, Dict.set d c (f c)) d cs.

(** The registry once the budget page has seeded it. *)
Definition seeded (s : state) : list string :=
  default BudgetManager.default_categories (budget_categories s).

(** Whether the submit handler of the budget form registers the custom
    category. *)
Definition adds_category (inp : BudgetManager.form_input) (s : state) : bool :=
  BudgetManager.submit_button inp
  && Py.truthy_str (BudgetManager.new_category inp)
  && bool_decide (BudgetManager.new_category inp ∉ seeded s).

End Store.

(** * Properties *)

Import InvestmentCalculator.

(** ** The periodic-investment projection *)

Section SipLoop.

Variables (monthly_investment monthly_rate : Q) (total_months : nat).

Let zeros : list Q := replicate total_months 0.

Local Abbreviation sip_loop_inv :=
  (Invariant.sip_loop monthly_investment monthly_rate total_months).

Lemma sip_month_inv k arrays :
  (k < total_months)%nat →
  sip_loop_inv k arrays →
  sip_loop_inv (S k) (sip_month monthly_investment monthly_rate arrays k).
Proof.
  intros Hk (Hl1 & Hl2 & Hn). destruct arrays as [ti iv]. simpl in *.
  destruct k as [|k].
  - repeat split; simpl; rewrite ?length_insert; try done.
    all: assert (n = 0)%nat as -> by lia.
    all: by rewrite list_lookup_insert_eq by lia.
  - destruct (Hn k ltac:(lia)) as [Hti Hiv].
    rewrite (list_lookup_total_correct _ _ _ Hti).
    rewrite (list_lookup_total_correct _ _ _ Hiv).
    repeat split; simpl; rewrite ?length_insert; try done.
    all: destruct (decide (n = S k)) as [->|Hne].
    all: try (by rewrite list_lookup_insert_eq by lia).
    all: rewrite list_lookup_insert_ne by done.
    all: apply Hn; lia.
Qed.

Lemma sip_loop_correct k :
  (k ≤ total_months)%nat →
  sip_loop_inv k
    (foldl (sip_month monthly_investment monthly_rate) (zeros, zeros) (seq 0 k)).
Proof.
  induction k as [|k IH]; intros Hk.
  - repeat split; simpl; unfold zeros; rewrite ?length_replicate; try done; lia.
  - rewrite seq_S, foldl_app. simpl. apply sip_month_inv; [lia|]. apply IH. lia.
Qed.

End SipLoop.

Lemma sip_invested_times contribution n :
  Spec.sip_invested contribution n == inject_Z (Z.of_nat (n + 1)) * contribution.
Proof.
  induction n as [|n IH]; simpl Spec.sip_invested.
  - simpl. ring.
  - rewrite IH. replace (S n + 1)%nat with (S (n + 1)) by lia.
    rewrite Nat2Z.inj_succ. unfold Z.succ. rewrite inject_Z_plus. ring.
Qed.

(** The recurrence, unrolled from an empty account. *)
Lemma sip_value_iterates contribution r n :
  Spec.sip_value contribution r n
  == Nat.iter (S n) (λ v, v * (1 + r) + contribution) 0.
Proof.
  induction n as [|n IH].
  - simpl. ring.
  - change (Spec.sip_value contribution r n * (1 + r) + contribution
            == Nat.iter (S n) (λ v, v * (1 + r) + contribution) 0 * (1 + r)
               + contribution).
    by rewrite IH.
Qed.

(** The columns of the frame are the recurrences of the specification. *)
Lemma sip_projection_refines (float_pow : Q → Q → Q)
    (contribution annual_rate : Q) (years n : nat) :
  (n < years * 12)%nat →
  let df := calculate_sip_returns float_pow contribution annual_rate years in
  Sip.Total_Investment df !! n = Some (Spec.sip_invested contribution n)
  ∧ Sip.Investment_Value df !! n
    = Some (Spec.sip_value contribution (monthly_rate_of float_pow annual_rate) n).
Proof.
  intros Hn df.
  pose proof (sip_loop_correct contribution (monthly_rate_of float_pow annual_rate)
                (years * 12) (years * 12) ltac:(lia)) as Hinv.
  unfold df, calculate_sip_returns.
  destruct (foldl _ _ _) as [ti iv]. destruct Hinv as (_ & _ & Hcells).
  by apply Hcells.
Qed.

(** One year at 1000 a month and 12%: twelve points, the last one being the
    recurrence [v = v * (1 + r) + 1000] applied twelve times to 0. *)
Lemma sip_one_year_is_twelve_steps (float_pow : Q → Q → Q) :
  let df := calculate_sip_returns float_pow 1000 12 1 in
  let r := float_pow (1 + 12 / 100) (1 / 12) - 1 in
  length (Sip.Investment_Value df) = 12%nat
  ∧ ∃ v12, Sip.Investment_Value df !! 11%nat = Some v12
      ∧ v12 == Nat.iter 12 (λ v, v * (1 + r) + 1000) 0.
Proof.
  intros df r. split.
  - pose proof (sip_loop_correct 1000 r 12 12 ltac:(lia)) as Hinv.
    unfold df, calculate_sip_returns, monthly_rate_of. fold r.
    change (1 * 12)%nat with 12%nat.
    destruct (foldl _ _ _) as [ti iv]. by destruct Hinv as (_ & Hlen & _).
  - destruct (sip_projection_refines float_pow 1000 12 1 11 ltac:(lia))
      as [_ Hv].
    eexists. split; [exact Hv|]. apply sip_value_iterates.
Qed.

(** C1.  For a whole number of years, at least one, the projection has
    [years * 12] points numbered from 1; the value of month 1 is the
    contribution; the value of each later month is the previous value times
    [1 + r] plus the contribution, with
    [r = (1 + annualRate/100) ** (1/12) - 1]; and the cumulative contribution
    of month [n] is [n] times the contribution. *)
Theorem sip_projection_points (float_pow : Q → Q → Q)
    (contribution annual_rate : Q) (years : nat) :
  (1 ≤ years)%nat →
  let df := calculate_sip_returns float_pow contribution annual_rate years in
  let r := float_pow (1 + annual_rate / 100) (1 / 12) - 1 in
  (length (Sip.Month df) = years * 12
   ∧ length (Sip.Total_Investment df) = years * 12
   ∧ length (Sip.Investment_Value df) = years * 12)%nat
  ∧ Sip.Month df = seq 1 (years * 12)
  ∧ Sip.Investment_Value df !! 0%nat = Some contribution
  ∧ (∀ i, (1 ≤ i < years * 12)%nat →
       ∃ previous, Sip.Investment_Value df !! (i - 1)%nat = Some previous
         ∧ Sip.Investment_Value df !! i = Some (previous * (1 + r) + contribution))
  ∧ (∀ i, (i < years * 12)%nat →
       ∃ invested, Sip.Total_Investment df !! i = Some invested
         ∧ invested == inject_Z (Z.of_nat (i + 1)) * contribution).
Proof.
  intros Hy df r.
  pose proof (sip_loop_correct contribution r (years * 12) (years * 12)
                ltac:(lia)) as Hinv.
  unfold df, calculate_sip_returns, monthly_rate_of. fold r.
  destruct (foldl _ _ _) as [ti iv]. destruct Hinv as (Hl1 & Hl2 & Hn).
  simpl in *. repeat split; try done.
  - by rewrite length_seq.
  - apply (Hn 0%nat). lia.
  - intros i Hi. exists (Spec.sip_value contribution r (i - 1)). split.
    + apply Hn. lia.
    + destruct i as [|i]; [lia|]. replace (S i - 1)%nat with i by lia.
      apply (Hn (S i)). lia.
  - intros i Hi. exists (Spec.sip_invested contribution i). split.
    + by apply Hn.
    + apply sip_invested_times.
Qed.

Lemma sip_projection_points_witness :
  (1 ≤ 1)%nat
  ∧ length (Sip.Investment_Value (calculate_sip_returns (λ x _, x) 1000 12 1)) = 12%nat
  ∧ Sip.Investment_Value (calculate_sip_returns (λ x _, x) 1000 12 1) !! 0%nat
    = Some 1000.
Proof.
  split; [lia|].
  destruct (sip_projection_points (λ x _, x) 1000 12 1 ltac:(lia))
    as ((_ & _ & Hlen) & _ & H0 & _).
  split; [exact Hlen | exact H0].
Defined.

(** ** The lump-sum projection *)

Lemma enumerate_seq n :
  imap pair (seq 0 n) = (λ i, (i, i)) <$> seq 0 n.
Proof.
  apply list_eq. intros i.
  rewrite list_lookup_imap, list_lookup_fmap.
  destruct (decide (i < n)%nat) as [Hi|Hi].
  - by rewrite lookup_seq_lt.
  - by rewrite lookup_seq_ge by lia.
Qed.

Section LumpsumLoop.

Variables (investment_amount annual_return_rate : Q) (points : nat).

Local Abbreviation lumpsum_loop_inv :=
  (Invariant.lumpsum_loop investment_amount annual_return_rate points).

Lemma lumpsum_loop_correct k :
  (k ≤ points)%nat →
  lumpsum_loop_inv k
    (foldl (lumpsum_year investment_amount annual_return_rate)
           (replicate points 0) ((λ i, (i, i)) <$> seq 0 k)).
Proof.
  induction k as [|k IH]; intros Hk.
  - split; [apply length_replicate | intros y Hy; lia].
  - rewrite seq_S, fmap_app, foldl_app. simpl.
    destruct (IH ltac:(lia)) as [Hlen Hy]. split.
    + by rewrite length_insert.
    + intros y Hlt. destruct (decide (y = k)) as [->|Hne].
      * by rewrite list_lookup_insert_eq by lia.
      * rewrite list_lookup_insert_ne by done. apply Hy. lia.
Qed.

End LumpsumLoop.

(** C4.  For a whole number of years the lump-sum projection has
    [years + 1] points, for the years [0 .. years]; the value of year [y] is
    [principal * (1 + annualRate/100) ^ y]; the point of year 0 is the
    principal; and the projection of 100000 at 12% over 10 years ends within
    0.01 of 310584.82.  (The statement holds for [years = 0] as well.) *)
Theorem lumpsum_projection_points (principal annual_rate : Q) (years : nat) :
  let df := calculate_lumpsum_returns principal annual_rate years in
  (length (Lumpsum.Year df) = years + 1
   ∧ length (Lumpsum.Investment_Value df) = years + 1)%nat
  ∧ Lumpsum.Year df = seq 0 (years + 1)
  ∧ (∀ y, (y ≤ years)%nat →
       Lumpsum.Investment_Value df !! y
       = Some (principal * (1 + annual_rate / 100) ^ Z.of_nat y))
  ∧ (∃ v0, Lumpsum.Investment_Value df !! 0%nat = Some v0 ∧ v0 == principal)
  ∧ (∃ v10,
       Lumpsum.Investment_Value (calculate_lumpsum_returns 100000 12 10) !! 10%nat
       = Some v10
       ∧ v10 == 100000 * 1.12 ^ 10
       ∧ Qabs (v10 - 310584.82) <= 0.01).
Proof.
  intros df.
  pose proof (lumpsum_loop_correct principal annual_rate (years + 1) (years + 1)
                ltac:(lia)) as [Hlen Hval].
  assert (Hdf : Lumpsum.Investment_Value df
                = foldl (lumpsum_year principal annual_rate)
                        (replicate (years + 1) 0)
                        ((λ i, (i, i)) <$> seq 0 (years + 1))).
  { unfold df, calculate_lumpsum_returns. simpl Lumpsum.Investment_Value.
    by rewrite enumerate_seq, length_seq. }
  rewrite Hdf. repeat split.
  - unfold df. simpl. by rewrite length_seq.
  - exact Hlen.
  - intros y Hy. apply Hval. lia.
  - eexists. split; [apply Hval; lia|]. simpl. ring.
  - eexists. split; [vm_compute; reflexivity|]. split.
    + vm_compute. reflexivity.
    + apply Qle_bool_iff. vm_compute. reflexivity.
Qed.

Lemma lumpsum_projection_points_witness :
  (2 ≤ 3)%nat
  ∧ Lumpsum.Investment_Value (calculate_lumpsum_returns 5000 8 3) !! 2%nat
    = Some (5000 * (1 + 8 / 100) ^ 2).
Proof.
  split; [lia|].
  destruct (lumpsum_projection_points 5000 8 3) as (_ & _ & Hval & _).
  apply (Hval 2%nat). lia.
Defined.

(** ** The inflation-adjusted final value *)

Lemma div_by_zero x y : y == 0 → Py.div x y = Py.Raises Py.ZeroDivisionError.
Proof.
  intros Hy. unfold Py.div.
  by rewrite (proj2 (Qeq_bool_iff y 0) Hy).
Qed.

Lemma div_returns x y : ¬ y == 0 → Py.div x y = Py.Returns (x / y).
Proof.
  intros Hy. unfold Py.div.
  destruct (Qeq_bool y 0) eqn:E; [|done].
  by apply Qeq_bool_iff in E.
Qed.

(** Whenever the real return rate is computed and is zero, line 143 divides
    by it: no guard stands in between. *)
Lemma inflation_adj_final_zero_rate contribution annual_rate years inflation_rate rrr :
  real_return_rate annual_rate inflation_rate = Py.Returns rrr →
  rrr == 0 →
  inflation_adj_final contribution annual_rate years inflation_rate
  = Py.Raises Py.ZeroDivisionError.
Proof.
  intros Hr Hz. unfold inflation_adj_final. rewrite Hr. cbn [Py.bind].
  by rewrite div_by_zero.
Qed.

(** Equal nominal and inflation rates give a real return rate of zero. *)
Lemma real_return_rate_equal_rates rate :
  ¬ 1 + rate / 100 == 0 →
  ∃ rrr, real_return_rate rate rate = Py.Returns rrr ∧ rrr == 0.
Proof.
  intros Hnz. unfold real_return_rate. rewrite div_returns by done.
  cbn [Py.bind]. eexists. split; [reflexivity|].
  unfold Qdiv. rewrite Qmult_inv_r by done. ring.
Qed.

(** C3.  With the default inflation rate of 6% and an expected return of 6%
    the summary of a 1000-a-month, 10-year plan raises [ZeroDivisionError]:
    the value [1000 * 120] of the zero-growth annuity is not returned. *)
Theorem inflation_adj_final_divides_by_zero :
  (∃ rrr, real_return_rate 6.0 6.0 = Py.Returns rrr ∧ rrr == 0)
  ∧ inflation_adj_final 1000 6.0 10 6.0 = Py.Raises Py.ZeroDivisionError
  ∧ inflation_adj_final 1000 6.0 10 6.0 ≠ Py.Returns (1000 * 120).
Proof.
  assert (Hnz : ¬ 1 + 6.0 / 100 == 0) by (vm_compute; discriminate).
  destruct (real_return_rate_equal_rates 6.0 Hnz) as (rrr & Hr & Hz).
  pose proof (inflation_adj_final_zero_rate 1000 6.0 10 6.0 rrr Hr Hz) as H.
  split; [by exists rrr|]. split; [exact H | by rewrite H].
Qed.

(** ** Comparisons *)

Lemma py_lt_iff x y : Py.lt x y = true ↔ x < y.
Proof.
  unfold Py.lt. rewrite negb_true_iff. split.
  - intros H. apply Qnot_le_lt. intros Hle.
    apply Qle_bool_iff in Hle. congruence.
  - intros H. destruct (Qle_bool y x) eqn:E; [|done].
    apply Qle_bool_iff in E. lra.
Qed.

Lemma py_le_iff x y : Py.le x y = true ↔ x <= y.
Proof. apply Qle_bool_iff. Qed.

Lemma py_gt_iff x y : Py.gt x y = true ↔ y < x.
Proof. apply py_lt_iff. Qed.

Lemma py_ge_iff x y : Py.ge x y = true ↔ y <= x.
Proof. apply py_le_iff. Qed.

Lemma py_lt_false x y : Py.lt x y = false ↔ y <= x.
Proof.
  rewrite <- not_true_iff_false, py_lt_iff. split; intros H; lra.
Qed.

Lemma py_le_false x y : Py.le x y = false ↔ y < x.
Proof.
  rewrite <- not_true_iff_false, py_le_iff. split; intros H; lra.
Qed.

Lemma py_min_Qmin a b : Py.min a b == Qmin a b.
Proof.
  unfold Py.min. destruct (Py.lt b a) eqn:E.
  - apply py_lt_iff in E. symmetry. apply Q.min_r. lra.
  - apply py_lt_false in E. symmetry. apply Q.min_l. lra.
Qed.

(** ** The budget-status report *)

Import Session BudgetManager.

Lemma status_of_Some spending category budget row :
  status_of spending (category, budget) = Some row ↔
  0 < budget ∧
  row = {| row_category := category;
           row_spent := Dict.get_default spending category 0;
           row_budget := budget;
           row_percentage :=
             percentage_of (Dict.get_default spending category 0) budget;
           row_color :=
             color_of (percentage_of (Dict.get_default spending category 0) budget);
           row_alert := alert_of (Dict.get_default spending category 0) budget |}.
Proof.
  unfold status_of. destruct (Py.gt budget 0) eqn:E.
  - apply py_gt_iff in E. split.
    + intros [= <-]. done.
    + intros [_ ->]. done.
  - split; [done|]. intros [H _]. apply py_gt_iff in H. congruence.
Qed.

Lemma budget_status_categories (allocation spending : Dict.t Q) :
  row_category <$> budget_status allocation spending
  = (filter (λ item, 0 < item.2) allocation).*1.
Proof.
  unfold budget_status, Dict.items.
  induction allocation as [|[category budget] allocation IH]; [done|].
  rewrite filter_cons. simpl.
  destruct (Py.gt budget 0) eqn:E.
  - apply py_gt_iff in E. rewrite decide_True by done.
    simpl. f_equal. exact IH.
  - rewrite decide_False; [done|]. intros H. apply py_gt_iff in H. congruence.
Qed.

Lemma color_of_thresholds p :
  (p < 60 → color_of p = green)
  ∧ (60 <= p → p < 80 → color_of p = orange)
  ∧ (80 <= p → color_of p = red).
Proof.
  unfold color_of.
  destruct (Py.ge p 80) eqn:E80; destruct (Py.ge p 60) eqn:E60;
    repeat match goal with
    | H : Py.ge _ _ = true |- _ => apply py_ge_iff in H
    | H : Py.ge _ _ = false |- _ => apply py_le_false in H
    end;
    repeat split; intros; try done; lra.
Qed.

Lemma alert_of_over spent budget :
  (budget - spent < 0 →
     alert_of spent budget = Some (Over_budget_by (Qabs (budget - spent))))
  ∧ (¬ budget - spent < 0 →
       ∀ over, alert_of spent budget ≠ Some (Over_budget_by over)).
Proof.
  unfold alert_of. destruct (Py.lt (budget - spent) 0) eqn:E.
  - apply py_lt_iff in E. split; [done | intros H; lra].
  - apply py_lt_false in E. split; [intros H; lra|].
    intros _ over. by destruct (Py.lt _ _).
Qed.

Lemma dict_get_set {V} (d : Dict.t V) k v c :
  Dict.get (Dict.set d k v) c = if decide (c = k) then Some v else Dict.get d c.
Proof.
  induction d as [|[k' v'] d IH]; simpl.
  - done.
  - destruct (decide (k = k')) as [<-|Hk]; simpl.
    + by destruct (decide (c = k)).
    + rewrite IH. destruct (decide (c = k')) as [->|Hc]; [|done].
      by rewrite decide_False by done.
Qed.

(** What [category_spending] holds for a category: the total of its
    expenses of the period when it is registered, nothing otherwise. *)
Lemma category_spending_get registered (monthly_expenses : list expense) c :
  Dict.get_default (category_spending registered monthly_expenses) c 0
  = if decide (c ∈ registered)
    then ExpenseTracker.total (filter (λ e, category e = c) monthly_expenses)
    else 0.
Proof.
  unfold category_spending.
  change 0 with (Dict.get_default (@Dict.empty Q) c 0) at 3.
  generalize (@Dict.empty Q).
  induction registered as [|c' registered IH]; intros acc; [done|].
  simpl foldl. rewrite IH.
  destruct (decide (c ∈ registered)) as [Hin|Hnin].
  - by rewrite decide_True by (by right).
  - unfold Dict.get_default at 1. rewrite dict_get_set.
    destruct (decide (c = c')) as [->|Hne].
    + rewrite decide_True by left. simpl.
      by destruct (filter _ monthly_expenses).
    + rewrite decide_False; [done|].
      intros [?|?]%elem_of_cons; done.
Qed.

(** Tab 2 shows the report for the allocation of the session and the
    spending of the current period. *)
Lemma budget_analysis_rows period today s rows :
  budget_analysis period today s = Some rows →
  rows = budget_status (budgets s)
           (category_spending (registry s)
              (period_expenses period today (expenses s))).
Proof.
  unfold budget_analysis. destruct (_ || _); [done|]. by intros [= <-].
Qed.

(** C2.  The report has one row per category whose budget is above zero, in
    the order of the allocation, and no other row.  In each row the
    percentage is [min(100, spent/budget*100)]; the colour is green (ok)
    below 60, orange (warning) from 60 up to but not including 80, red
    (critical) from 80 on; and a negative remaining amount, and only that, is
    reported as over budget by its absolute value.  Spending 80 of a budget of
    100 is critical, spending 59.99 of 100 is ok. *)
Theorem budget_status_report (allocation spending : Dict.t Q) :
  row_category <$> budget_status allocation spending
  = (filter (λ item, 0 < item.2) allocation).*1
  ∧ (∀ row, row ∈ budget_status allocation spending →
       let spent := Dict.get_default spending (row_category row) 0 in
       let budget := row_budget row in
       let remaining := budget - spent in
       (row_category row, budget) ∈ allocation
       ∧ 0 < budget
       ∧ row_spent row = spent
       ∧ row_percentage row == Qmin 100 (spent / budget * 100)
       ∧ (row_percentage row < 60 → row_color row = green)
       ∧ (60 <= row_percentage row → row_percentage row < 80 →
            row_color row = orange)
       ∧ (80 <= row_percentage row → row_color row = red)
       ∧ (remaining < 0 → row_alert row = Some (Over_budget_by (Qabs remaining)))
       ∧ (¬ remaining < 0 → ∀ over, row_alert row ≠ Some (Over_budget_by over)))
  ∧ (∃ row, budget_status [("Food & Drinks"%string, 100)]
                          [("Food & Drinks"%string, 80)] = [row]
       ∧ row_percentage row == 80 ∧ row_color row = red)
  ∧ (∃ row, budget_status [("Food & Drinks"%string, 100)]
                          [("Food & Drinks"%string, 59.99)] = [row]
       ∧ row_color row = green).
Proof.
  split; [apply budget_status_categories|]. split.
  - intros row Hrow. unfold budget_status, Dict.items in Hrow.
    apply list_elem_of_omap in Hrow as ([category budget] & Hin & Hrow).
    apply status_of_Some in Hrow as [Hpos ->]. cbn zeta. simpl.
    pose proof (color_of_thresholds
                  (percentage_of (Dict.get_default spending category 0) budget))
      as (Hg & Ho & Hr).
    pose proof (alert_of_over (Dict.get_default spending category 0) budget)
      as [Hover Hnot].
    repeat split; try done.
    unfold percentage_of. rewrite (proj2 (py_gt_iff budget 0) Hpos).
    apply py_min_Qmin.
  - split; eexists; (split; [vm_compute; reflexivity|]); try split;
      vm_compute; reflexivity.
Qed.

Lemma budget_status_report_witness :
  let allocation := [("Groceries"%string, 2000); ("Health"%string, 0);
                     ("Shopping"%string, 500)] in
  let spending := [("Groceries"%string, 1300); ("Shopping"%string, 650)] in
  row_category <$> budget_status allocation spending
  = ["Groceries"; "Shopping"]%string
  ∧ ∀ row, row ∈ budget_status allocation spending →
      80 <= row_percentage row → row_color row = red.
Proof.
  intros allocation spending.
  destruct (budget_status_report allocation spending) as (Hcats & Hrows & _).
  split; [exact Hcats|].
  intros row Hrow. destruct (Hrows row Hrow) as (_ & _ & _ & _ & _ & _ & Hred & _).
  exact Hred.
Defined.

(** ** Filtering the expense history *)

Import ExpenseTracker.

Lemma unique_from_elem seen l x :
  x ∈ unique_from seen l ↔ x ∈ l ∧ x ∉ seen.
Proof.
  revert seen. induction l as [|y l IH]; intros seen; simpl.
  - split; [intros H; inversion H | intros [H _]; inversion H].
  - case_decide as Hy.
    + rewrite IH, elem_of_cons. split; [tauto|].
      intros [[->|Hx] Hn]; [done | tauto].
    + rewrite !elem_of_cons, IH, elem_of_cons. split.
      * intros [->|[Hx Hn]]; [tauto|]. split; [tauto|]. tauto.
      * intros [[->|Hx] Hn]; [tauto|].
        destruct (decide (x = y)); [tauto|]. right. tauto.
Qed.

Lemma unique_elem l x : x ∈ unique l ↔ x ∈ l.
Proof.
  unfold unique. rewrite unique_from_elem. split; [tauto|].
  intros H. split; [done|]. apply not_elem_of_nil.
Qed.

Lemma filter_all {A} (P : A → Prop) `{∀ x, Decision (P x)} (l : list A) :
  (∀ x, x ∈ l → P x) → filter P l = l.
Proof.
  induction l as [|x l IH]; intros HP; [done|].
  rewrite filter_cons_True by (apply HP; left).
  f_equal. apply IH. intros y Hy. apply HP. by right.
Qed.

Lemma apply_category_filter_sublist selected (df : list expense) :
  apply_category_filter selected df `sublist_of` df.
Proof.
  unfold apply_category_filter.
  destruct (Py.truthy_list selected); [apply sublist_filter | done].
Qed.

Lemma apply_date_filter_sublist today f (df : list expense) :
  apply_date_filter today f df `sublist_of` df.
Proof. destruct f; simpl; [done | apply sublist_filter ..]. Qed.

(** The filtered rows are rows of the ledger, in ledger order. *)
Lemma filtered_expenses_sublist today f selected (df : list expense) :
  filtered_expenses today f selected df `sublist_of` df.
Proof.
  unfold filtered_expenses.
  etrans; [apply apply_category_filter_sublist | apply apply_date_filter_sublist].
Qed.

Lemma apply_category_filter_all (df : list expense) :
  apply_category_filter (all_categories df) df = df.
Proof.
  unfold apply_category_filter.
  destruct (Py.truthy_list _); [|done].
  apply filter_all. intros e He. unfold all_categories.
  apply unique_elem, list_elem_of_fmap. by exists e.
Qed.

(** C5 as stated fails: with one recorded expense and the selection emptied,
    the history still lists that expense. *)
Lemma empty_selection_keeps_the_ledger :
  let lunch := {| date := 738521%Z; amount := 120;
                  category := "Food & Drinks"; description := "lunch" |} in
  filtered_expenses 738521%Z All_time [] [lunch] = [lunch]
  ∧ filtered_expenses 738521%Z All_time [] [lunch] ≠ []
  ∧ expense_history 738521%Z All_time []
      {| expenses := [lunch]; budgets := []; budget_categories := None |}
    = Listing [lunch] 120.
Proof. repeat split; done. Qed.

(** C5, amended.  An empty selection applies no category constraint: for
    every ledger and every choice of the date filter the result is the ledger
    filtered by date alone; with "All time" it is the whole ledger. *)
Theorem empty_selection_is_no_constraint (today : Calendar.date)
    (f : date_filter) (ledger : list expense) :
  filtered_expenses today f [] ledger = apply_date_filter today f ledger
  ∧ filtered_expenses today All_time [] ledger = ledger.
Proof. done. Qed.

(** C7.  With the full date range ("All time", or a custom range that
    contains every date of the ledger) and all categories selected, the
    filter returns the ledger itself, record for record and in the same
    order, so the totals agree; under any filter the result is a subsequence
    of the ledger. *)
Theorem unconstrained_filter_preserves_total (today : Calendar.date)
    (f : date_filter) (ledger : list expense) :
  (f = All_time
   ∨ ∃ start_date end_date, f = Custom start_date end_date
       ∧ ∀ e, e ∈ ledger → (start_date ≤ date e ≤ end_date)%Z) →
  filtered_expenses today f (all_categories ledger) ledger = ledger
  ∧ total (filtered_expenses today f (all_categories ledger) ledger)
    = total ledger
  ∧ (∀ today' f' selected,
       filtered_expenses today' f' selected ledger `sublist_of` ledger).
Proof.
  intros Hfull.
  assert (Hid : filtered_expenses today f (all_categories ledger) ledger = ledger).
  { unfold filtered_expenses.
    assert (apply_date_filter today f ledger = ledger) as ->.
    { destruct Hfull as [->|(start_date & end_date & -> & Hin)]; [done|].
      simpl. apply filter_all. intros e He. specialize (Hin e He). lia. }
    apply apply_category_filter_all. }
  split; [exact Hid|]. split; [by rewrite Hid|].
  intros today' f' selected. apply filtered_expenses_sublist.
Qed.

Lemma unconstrained_filter_preserves_total_witness :
  let rent := {| date := 738521%Z; amount := 9000;
                 category := "Housing & Rent"; description := "" |} in
  let tea := {| date := 738530%Z; amount := 12.5;
                category := "Food & Drinks"; description := "tea" |} in
  filtered_expenses 738540%Z (Custom 738500%Z 738540%Z)
    (all_categories [rent; tea; rent]) [rent; tea; rent] = [rent; tea; rent]
  ∧ total (filtered_expenses 738540%Z (Custom 738500%Z 738540%Z)
             (all_categories [rent; tea; rent]) [rent; tea; rent])
    = total [rent; tea; rent].
Proof.
  intros rent tea.
  destruct (unconstrained_filter_preserves_total 738540%Z
              (Custom 738500%Z 738540%Z) [rent; tea; rent]) as (H1 & H2 & _).
  - right. exists 738500%Z, 738540%Z. split; [done|].
    intros e He. apply list_elem_of_In in He. simpl in He.
    destruct He as [<-|[<-|[<-|[]]]]; simpl; lia.
  - split; [exact H1 | exact H2].
Defined.

(** ** Totals by category *)

Import DataVisualization.

(** Addition of rationals is commutative and associative on the nose, not
    only up to [==]. *)
Lemma Qplus_comm_eq (x y : Q) : x + y = y + x.
Proof.
  destruct x as [xn xd], y as [yn yd]. unfold Qplus. simpl. f_equal.
  - ring.
  - apply Pos.mul_comm.
Qed.

Lemma Qplus_assoc_eq (x y z : Q) : x + y + z = x + (y + z).
Proof.
  destruct x as [xn xd], y as [yn yd], z as [zn zd]. unfold Qplus. simpl.
  f_equal.
  - rewrite !Pos2Z.inj_mul. ring.
  - symmetry. apply Pos.mul_assoc.
Qed.

Lemma foldl_Qplus_swap (a x y : Q) : a + x + y = a + y + x.
Proof. by rewrite !Qplus_assoc_eq, (Qplus_comm_eq x y). Qed.

Section Groupby.

Let step (acc : gmap string Q) (e : expense) : gmap string Q :=
  <[category e := default 0 (acc !! category e) + amount e]> acc.

(** The entry of category [c] after folding the rows of [df] into [acc]. *)
Lemma groupby_fold_lookup (df : list expense) (acc : gmap string Q) (c : string) :
  foldl step acc df !! c
  = match filter (λ e, category e = c) df with
    | [] => acc !! c
    | rows => Some (foldl Qplus (default 0 (acc !! c)) (amount <$> rows))
    end.
Proof.
  revert acc. induction df as [|e df IH]; intros acc; [done|].
  simpl foldl. rewrite IH, filter_cons.
  destruct (decide (category e = c)) as [<-|Hne].
  - unfold step at 1 2. rewrite lookup_insert_eq.
    by destruct (filter _ df).
  - unfold step at 1 2. by rewrite lookup_insert_ne.
Qed.

Lemma groupby_category_sum_lookup (df : list expense) (c : string) :
  groupby_category_sum df !! c
  = if decide (c ∈ category <$> df)
    then Some (Py.sum (amount <$> filter (λ e, category e = c) df))
    else None.
Proof.
  unfold groupby_category_sum. fold step. rewrite groupby_fold_lookup.
  rewrite lookup_empty. simpl.
  destruct (filter (λ e, category e = c) df) as [|e rows] eqn:E.
  - rewrite decide_False; [done|]. intros Hin.
    apply list_elem_of_fmap in Hin as (e & -> & He).
    by apply (filter_nil_not_elem_of _ _ e) in E.
  - rewrite decide_True; [done|].
    assert (He : e ∈ filter (λ e, category e = c) df) by (rewrite E; left).
    apply list_elem_of_filter in He as [<- He].
    apply list_elem_of_fmap. by exists e.
Qed.

End Groupby.

(** The aggregation on doubles, category by category. *)
Lemma category_sums_lookup (series_sum : list float → float)
    (df : list (string * float)) (c : string) :
  CategorySums.groupby_category_sum series_sum df !! c
  = if decide (c ∈ df.*1)
    then Some (series_sum (CategorySums.group c df))
    else None.
Proof.
  unfold CategorySums.groupby_category_sum.
  set (f := λ c, series_sum (CategorySums.group c df)).
  change ((list_to_map ((λ r : string * float, (r.1, f r.1)) <$> df)
             : gmap string float) !! c
          = if decide (c ∈ df.*1) then Some (f c) else None).
  clearbody f. induction df as [|r df IH].
  - rewrite decide_False by apply not_elem_of_nil. done.
  - rewrite !fmap_cons, list_to_map_cons. cbn [fst].
    destruct (decide (c = r.1)) as [->|Hne].
    + rewrite lookup_insert_eq. rewrite decide_True by left. done.
    + rewrite lookup_insert_ne by done. rewrite IH.
      destruct (decide (c ∈ df.*1)) as [Hin|Hnin].
      * rewrite decide_True by (by right). done.
      * rewrite decide_False; [done|]. by intros [?|?]%elem_of_cons.
Qed.

Lemma group_nil (c : string) (df : list (string * float)) :
  CategorySums.group c df = [] ↔ c ∉ df.*1.
Proof.
  unfold CategorySums.group. split.
  - intros E%fmap_nil_inv Hin.
    apply list_elem_of_fmap in Hin as (r & -> & Hr).
    by apply (filter_nil_not_elem_of _ _ r) in E.
  - intros Hnin.
    destruct (filter (λ r, r.1 = c) df) as [|r l] eqn:E; [done|].
    exfalso. apply Hnin.
    assert (Hr : r ∈ filter (λ r, r.1 = c) df) by (rewrite E; left).
    apply list_elem_of_filter in Hr as [<- Hr].
    apply list_elem_of_fmap. by exists r.
Qed.

(** C6 as stated fails in the arithmetic of the program: the three expenses
    5.17, 2.68 and 0.18 of one category add up to 8.03 in this order and to
    8.030000000000001 in the reverse order, whether the rows of a group are
    added one after the other or with Kahan's compensated summation.  The two
    inputs are reorderings of each other and the two results differ. *)
Lemma reordering_changes_a_category_total :
  let records := [("Food"%string, 5.17%float); ("Food"%string, 2.68%float);
                  ("Food"%string, 0.18%float)] in
  let reordered := [("Food"%string, 0.18%float); ("Food"%string, 2.68%float);
                    ("Food"%string, 5.17%float)] in
  records ≡ₚ reordered
  ∧ CategorySums.groupby_category_sum Float64.sum records !! "Food"%string
    = Some 8.03%float
  ∧ CategorySums.groupby_category_sum Float64.sum reordered !! "Food"%string
    = Some 8.030000000000001%float
  ∧ CategorySums.groupby_category_sum Float64.kahan_sum records !! "Food"%string
    = Some 8.03%float
  ∧ CategorySums.groupby_category_sum Float64.kahan_sum reordered !! "Food"%string
    = Some 8.030000000000001%float
  ∧ PrimFloat.eqb 8.03 8.030000000000001 = false
  ∧ CategorySums.groupby_category_sum Float64.sum reordered
    ≠ CategorySums.groupby_category_sum Float64.sum records
  ∧ CategorySums.groupby_category_sum Float64.kahan_sum reordered
    ≠ CategorySums.groupby_category_sum Float64.kahan_sum records.
Proof.
  intros records reordered.
  assert (Hne : 8.030000000000001%float ≠ 8.03%float).
  { intros H.
    assert (E : PrimFloat.eqb 8.030000000000001 8.03 = false)
      by (vm_compute; reflexivity).
    rewrite H in E. vm_compute in E. discriminate E. }
  assert (H1 : CategorySums.groupby_category_sum Float64.sum records
                 !! "Food"%string = Some 8.03%float)
    by (vm_compute; reflexivity).
  assert (H2 : CategorySums.groupby_category_sum Float64.sum reordered
                 !! "Food"%string = Some 8.030000000000001%float)
    by (vm_compute; reflexivity).
  assert (H3 : CategorySums.groupby_category_sum Float64.kahan_sum records
                 !! "Food"%string = Some 8.03%float)
    by (vm_compute; reflexivity).
  assert (H4 : CategorySums.groupby_category_sum Float64.kahan_sum reordered
                 !! "Food"%string = Some 8.030000000000001%float)
    by (vm_compute; reflexivity).
  split; [apply (reverse_Permutation reordered)|].
  split; [exact H1|]. split; [exact H2|]. split; [exact H3|].
  split; [exact H4|]. split; [vm_compute; reflexivity|]. split.
  - intros E. rewrite E, H1 in H2. apply (inj Some) in H2. by apply Hne.
  - intros E. rewrite E, H3 in H4. apply (inj Some) in H4. by apply Hne.
Qed.

(** C6, amended.  The aggregation has one entry for each category that
    occurs in the input and none for any other category (no zero-filled
    entries); the entry of a category is the sum of the amounts of its
    records, added in the order of the rows.  Under any reordering of the
    input the set of categories is the same and every category keeps the
    same amounts, in a possibly different order; the whole result is the same
    whenever the records of each category keep their relative order. *)
Theorem groupby_category_sum_by_group (series_sum : list float → float)
    (records : list (string * float)) :
  (∀ c, c ∈ records.*1 →
     CategorySums.groupby_category_sum series_sum records !! c
     = Some (series_sum (CategorySums.group c records)))
  ∧ (∀ c, c ∉ records.*1 →
       CategorySums.groupby_category_sum series_sum records !! c = None)
  ∧ (∀ reordered, records ≡ₚ reordered →
       (dom (CategorySums.groupby_category_sum series_sum reordered)
          : gset string)
       = dom (CategorySums.groupby_category_sum series_sum records))
  ∧ (∀ reordered, records ≡ₚ reordered →
       ∀ c, CategorySums.group c reordered ≡ₚ CategorySums.group c records)
  ∧ (∀ reordered,
       (∀ c, CategorySums.group c reordered = CategorySums.group c records) →
       CategorySums.groupby_category_sum series_sum reordered
       = CategorySums.groupby_category_sum series_sum records).
Proof.
  split; [|split; [|split; [|split]]].
  - intros c Hc. rewrite category_sums_lookup. by rewrite decide_True.
  - intros c Hc. rewrite category_sums_lookup. by rewrite decide_False.
  - intros reordered Hp. apply set_eq. intros c.
    rewrite !elem_of_dom, !category_sums_lookup.
    destruct (decide (c ∈ records.*1)) as [Hc|Hc].
    + rewrite decide_True by (by rewrite <- Hp). done.
    + rewrite decide_False by (by rewrite <- Hp). done.
  - intros reordered Hp c. unfold CategorySums.group. by rewrite Hp.
  - intros reordered Hg. apply map_eq. intros c.
    rewrite !category_sums_lookup, Hg.
    destruct (decide (c ∈ records.*1)) as [Hc|Hc].
    + rewrite decide_True; [done|].
      destruct (decide (c ∈ reordered.*1)) as [Hin|Hnin]; [done|].
      apply group_nil in Hnin. rewrite Hg in Hnin.
      by apply group_nil in Hnin.
    + rewrite decide_False; [done|].
      apply group_nil. rewrite Hg. by apply group_nil.
Qed.

Lemma groupby_category_sum_by_group_witness :
  let records := [("Food"%string, 5.17%float); ("Travel"%string, 40%float);
                  ("Food"%string, 2.68%float)] in
  let reordered := [("Travel"%string, 40%float); ("Food"%string, 5.17%float);
                    ("Food"%string, 2.68%float)] in
  (∀ c, CategorySums.group c reordered = CategorySums.group c records)
  ∧ CategorySums.groupby_category_sum Float64.kahan_sum reordered
    = CategorySums.groupby_category_sum Float64.kahan_sum records
  ∧ CategorySums.groupby_category_sum Float64.kahan_sum records !! "Health"%string
    = None.
Proof.
  intros records reordered.
  assert (Hg : ∀ c, CategorySums.group c reordered = CategorySums.group c records).
  { intros c. unfold CategorySums.group, records, reordered.
    rewrite !filter_cons, !filter_nil. cbn [fst].
    repeat case_decide; simplify_eq; done. }
  destruct (groupby_category_sum_by_group Float64.kahan_sum records)
    as (_ & Habsent & _ & _ & Hsame).
  split; [exact Hg|]. split; [exact (Hsame reordered Hg)|].
  apply Habsent. intros Hin. apply list_elem_of_In in Hin. simpl in Hin.
  destruct Hin as [H|[H|[H|[]]]]; discriminate H.
Defined.

(** ** The weekly spending planner *)

Import SpendingPlanner.

Lemma collect_percentages (pct : string → float) :
  collect pct = (pct <$> days_of_week, Float64.sum (pct <$> days_of_week)).
Proof. reflexivity. Qed.

(** C10 as stated fails in the arithmetic of the program.  With a pocket
    money of 900 and percentages that add up to 70 the plan falls back to the
    equal split, but the amount of a day, [900 * (1/7)], is
    128.57142857142856 and not [900 / 7], which is 128.57142857142858, and
    the seven amounts add up to 899.9999999999999 and not to 900. *)
Lemma equal_split_misses_the_pocket_money :
  let pct := λ _ : string, 10%float in
  let plan := spending_plan 900 true pct in
  (0.1 <? PrimFloat.abs (Float64.sum (pct <$> days_of_week) - 100))%float = true
  ∧ plan = replicate 7 128.57142857142856%float
  ∧ (900 / 7)%float = 128.57142857142858%float
  ∧ PrimFloat.eqb 128.57142857142856 (900 / 7) = false
  ∧ Float64.sum plan = 899.9999999999999%float
  ∧ PrimFloat.eqb (Float64.sum plan) 900 = false.
Proof. repeat split; vm_compute; reflexivity. Qed.

(** C10, amended.  With the custom distribution switched on, seven
    percentages are read and added up day by day in double precision.  When
    that total is more than 0.1 away from 100 (the comparison is made on
    doubles) the plan is the equal split: the distribution is [1/7] seven
    times and every day gets the same amount, [pocket_money * (1/7)].
    Otherwise the amount of each day is [pocket_money * (percentage / 100)].
    Nothing is claimed about [pocket_money / 7] or about the sum of the
    amounts, which hold only up to rounding. *)
Theorem weekly_plan_in_doubles (pocket_money : float) (pct : string → float) :
  let percentages := pct <$> days_of_week in
  let total_percentage := Float64.sum percentages in
  let plan := spending_plan pocket_money true pct in
  length percentages = 7%nat
  ∧ length plan = 7%nat
  ∧ ((0.1 <? PrimFloat.abs (total_percentage - 100))%float = true →
       distribution true pct = replicate 7 (1 / 7)%float
       ∧ plan = replicate 7 (pocket_money * (1 / 7))%float)
  ∧ ((0.1 <? PrimFloat.abs (total_percentage - 100))%float = false →
       distribution true pct = (λ p, p / 100)%float <$> percentages
       ∧ plan = (λ p, pocket_money * (p / 100))%float <$> percentages).
Proof.
  intros percentages total_percentage plan.
  split; [done|].
  unfold plan, spending_plan, distribution. rewrite collect_percentages.
  fold percentages. fold total_percentage.
  destruct (0.1 <? PrimFloat.abs (total_percentage - 100.0))%float eqn:E.
  - split; [done|]. split; [|done]. intros _. split; done.
  - split; [unfold daily_amounts; by rewrite !length_fmap|].
    split; [done|]. intros _. split; [done|].
    unfold daily_amounts. by rewrite <- list_fmap_compose.
Qed.

Lemma weekly_plan_in_doubles_witness :
  let short := λ day : string,
    if decide (day = "Sunday"%string) then 14.1%float else 14.3%float in
  let exact := λ day : string,
    if decide (day = "Sunday"%string) then 14.2%float else 14.3%float in
  (Float64.sum (short <$> days_of_week) = 99.89999999999999%float
   ∧ spending_plan 1000 true short = replicate 7 (1000 * (1 / 7))%float)
  ∧ (Float64.sum (exact <$> days_of_week) = 100%float
     ∧ spending_plan 1000 true exact
       = (λ p, 1000 * (p / 100))%float <$> (exact <$> days_of_week)).
Proof.
  intros short exact. split.
  - split; [vm_compute; reflexivity|].
    destruct (weekly_plan_in_doubles 1000 short) as (_ & _ & Hfall & _).
    apply Hfall. vm_compute. reflexivity.
  - split; [vm_compute; reflexivity|].
    destruct (weekly_plan_in_doubles 1000 exact) as (_ & _ & _ & Hcustom).
    apply Hcustom. vm_compute. reflexivity.
Defined.

(** ** Writes to the session store *)

Import App Invariant.

(** Membership in a list that evaluates to a literal. *)
Ltac in_list :=
  apply list_elem_of_In; vm_compute;
  repeat first [left; reflexivity | right].

Lemma dict_set_keys {V} (d : Dict.t V) k v c :
  c ∈ Dict.keys (Dict.set d k v) ↔ c = k ∨ c ∈ Dict.keys d.
Proof.
  unfold Dict.keys. induction d as [|[k' v'] d IH]; simpl.
  - rewrite list_elem_of_singleton. split; [tauto|].
    intros [H|H]; [done | inversion H].
  - case_decide as Hk; simpl; rewrite !elem_of_cons.
    + subst k'. tauto.
    + rewrite IH. tauto.
Qed.

Lemma dict_set_items {V} (d : Dict.t V) k v c x :
  (c, x) ∈ Dict.items (Dict.set d k v) → (c, x) = (k, v) ∨ (c, x) ∈ Dict.items d.
Proof.
  unfold Dict.items. induction d as [|[k' v'] d IH]; simpl.
  - rewrite list_elem_of_singleton. tauto.
  - case_decide as Hk; rewrite !elem_of_cons; [tauto|].
    intros [H|H]; [tauto|]. destruct (IH H); tauto.
Qed.

Lemma set_budgets_handler inp s :
  set_budgets inp s = run s (handler (Render_budget_page inp) s).
Proof. unfold set_budgets, run. simpl. by rewrite foldl_app. Qed.

Section RegistryInvariant.

Lemma apply_keeps_registry_invariant s m :
  registry_invariant s → registered_write s m → registry_invariant (apply s m).
Proof.
  intros Hinv Hm c. destruct m as [cs|c'|c' v|e]; simpl in *.
  - intros Hc. specialize (Hinv c Hc). unfold registry in Hinv.
    rewrite Hm in Hinv. inversion Hinv.
  - intros Hc. unfold registry at 1. simpl. apply elem_of_app. left. by apply Hinv.
  - intros Hc. apply dict_set_keys in Hc as [->|Hc]; [done | by apply Hinv].
  - apply Hinv.
Qed.

Lemma run_prefix_keeps_registry_invariant ms : ∀ s k,
  registry_invariant s → guarded s ms → registry_invariant (run s (take k ms)).
Proof.
  induction ms as [|m ms IH]; intros s k Hinv Hg.
  - by rewrite take_nil.
  - destruct k as [|k]; [done|]. destruct Hg as [Hm Hg]. simpl.
    apply IH; [by apply apply_keeps_registry_invariant | done].
Qed.

Lemma guarded_app ms1 : ∀ s ms2,
  guarded s ms1 → guarded (run s ms1) ms2 → guarded s (ms1 ++ ms2).
Proof.
  induction ms1 as [|m ms1 IH]; intros s ms2 H1 H2; [done|].
  destruct H1 as [Hm H1]. split; [done|]. by apply IH.
Qed.

Lemma guarded_budget_sets (f : string → Q) cs : ∀ s,
  (∀ c, c ∈ cs → c ∈ registry s) →
  guarded s ((λ c, Budget_set c (f c)) <$> cs).
Proof.
  induction cs as [|c cs IH]; intros s Hcs; [done|].
  split; [apply Hcs; left|]. apply IH. intros c' Hc'. apply Hcs. by right.
Qed.

Lemma guarded_save_custom_category inp s s' :
  guarded s' (save_custom_category inp s).
Proof.
  unfold save_custom_category.
  destruct (submit_button inp); [|done].
  destruct (_ && _); [|done].
  split; [done|]. split; [|done].
  simpl. unfold registry at 1. simpl. apply elem_of_app. right. left.
Qed.

Lemma guarded_handler ev s : guarded s (handler ev s).
Proof.
  destruct ev as [d a c desc|inp]; [done|]. simpl.
  apply guarded_app.
  - unfold init_categories. by destruct (budget_categories s) eqn:E.
  - unfold budget_form. apply guarded_app.
    + by apply guarded_budget_sets.
    + apply guarded_save_custom_category.
Qed.

Lemma handler_prefix_keeps_registry_invariant s ev k :
  registry_invariant s → registry_invariant (run s (take k (handler ev s))).
Proof.
  intros Hinv. apply run_prefix_keeps_registry_invariant; [done|].
  apply guarded_handler.
Qed.

Lemma reachable_registry_invariant s : reachable s → registry_invariant s.
Proof.
  induction 1 as [|s ev _ IH _].
  - intros c Hc. inversion Hc.
  - rewrite <- (firstn_all (handler ev s)).
    by apply handler_prefix_keeps_registry_invariant.
Qed.

End RegistryInvariant.

(** C8.  In every reachable state every key of the budget allocation is a
    registered category, and this holds after each single write of every
    handler as well.  When the budget form is submitted with a category that
    is not registered yet, the handler first appends it to the registry and
    then writes its allocation. *)
Theorem registry_membership_invariant :
  (∀ s, reachable s → registry_invariant s)
  ∧ (∀ s ev k, reachable s →
       registry_invariant (run s (take k (handler ev s))))
  ∧ (∀ s inp,
       submit_button inp = true →
       new_category inp ≠ ""%string →
       new_category inp ∉ registry s →
       save_custom_category inp s
       = [Registry_append (new_category inp);
          Budget_set (new_category inp) (new_category_budget inp)]
       ∧ new_category inp ∈ registry (apply s (Registry_append (new_category inp)))
       ∧ budgets (apply s (Registry_append (new_category inp))) = budgets s).
Proof.
  split; [apply reachable_registry_invariant|]. split.
  - intros s ev k Hs. apply handler_prefix_keeps_registry_invariant.
    by apply reachable_registry_invariant.
  - intros s inp Hsubmit Hname Hnew. split; [|split; [|done]].
    + unfold save_custom_category. rewrite Hsubmit.
      rewrite bool_decide_eq_true_2 by done.
      by destruct (new_category inp).
    + unfold registry at 1. simpl. apply elem_of_app. right. left.
Qed.

Lemma registry_membership_invariant_witness :
  let inp := {| new_budget := λ _, 1500; new_category := "Travel";
                new_category_budget := 800; submit_button := true |} in
  reachable (run init (handler (Render_budget_page inp) init))
  ∧ registry_invariant (run init (handler (Render_budget_page inp) init))
  ∧ save_custom_category inp (run init (init_categories init))
    = [Registry_append "Travel"; Budget_set "Travel" 800].
Proof.
  intros inp.
  destruct registry_membership_invariant as (Hreach & _ & Horder).
  assert (Hr : reachable (run init (handler (Render_budget_page inp) init))).
  { apply reachable_step; [apply reachable_init|].
    split; [intros c|]; vm_compute; discriminate. }
  split; [exact Hr|]. split; [exact (Hreach _ Hr)|].
  apply Horder; [reflexivity | discriminate|].
  intros Hin. apply list_elem_of_In in Hin. vm_compute in Hin.
  repeat (destruct Hin as [Hin|Hin]; [discriminate Hin|]). exact Hin.
Defined.

(** ** Amounts below zero *)

Section AmountsNonneg.

Lemma apply_keeps_amounts_nonneg s m :
  amounts_nonneg s → nonneg_write m → amounts_nonneg (apply s m).
Proof.
  intros [He Hb] Hm. destruct m as [cs|c|c v|e]; simpl in *; try done.
  - split; [done|]. simpl. intros c' v' Hin.
    apply dict_set_items in Hin as [[= -> ->]|Hin]; [done | by eapply Hb].
  - split; [|done]. simpl. intros e' Hin.
    apply elem_of_app in Hin as [Hin|Hin]; [by apply He|].
    apply list_elem_of_singleton in Hin as ->. done.
Qed.

Lemma run_keeps_amounts_nonneg ms : ∀ s,
  amounts_nonneg s → Forall nonneg_write ms → amounts_nonneg (run s ms).
Proof.
  induction ms as [|m ms IH]; intros s Hs Hms; [done|].
  inversion Hms as [|? ? Hm Hms']; subst. simpl.
  apply IH; [by apply apply_keeps_amounts_nonneg | done].
Qed.

Lemma handler_writes_nonneg ev s :
  from_widgets ev → Forall nonneg_write (handler ev s).
Proof.
  destruct ev as [d a c desc|inp]; simpl.
  - intros [Ha _]. by repeat constructor.
  - intros [Hloop Hcustom]. apply Forall_app. split.
    + unfold init_categories. destruct (budget_categories s); by repeat constructor.
    + unfold budget_form. apply Forall_app. split.
      * apply Forall_fmap, Forall_forall. intros c _. apply Hloop.
      * unfold save_custom_category.
        destruct (submit_button inp); [|done].
        destruct (_ && _); by repeat constructor.
Qed.

End AmountsNonneg.

(** C9 as stated fails: the submit handler appends a record with a negative
    amount, and the budget form stores a negative budget, when handed one;
    neither refuses the write. *)
Lemma negative_amounts_are_not_refused :
  let refund := {| date := 738521%Z; amount := -5;
                   category := "Other"; description := "" |} in
  let inp := {| new_budget := λ _, 0; new_category := "Travel";
                new_category_budget := -1; submit_button := true |} in
  expenses (run init (add_expense 738521%Z (-5) "Other" "")) = [refund]
  ∧ ¬ amounts_nonneg (run init (add_expense 738521%Z (-5) "Other" ""))
  ∧ Dict.get (budgets (set_budgets inp init)) "Travel" = Some (-1)
  ∧ "Travel"%string ∈ registry (set_budgets inp init)
  ∧ ¬ amounts_nonneg (set_budgets inp init).
Proof.
  intros refund inp. split; [done|]. split; [|split; [done|split]].
  - intros [He _]. specialize (He refund ltac:(left)). simpl in He. lra.
  - in_list.
  - intros [_ Hb].
    assert (Hin : ("Travel"%string, -1) ∈ Dict.items (budgets (set_budgets inp init))).
    { in_list. }
    specialize (Hb _ _ Hin). lra.
Qed.

(** C9, amended.  No handler checks an amount or fails; negative amounts
    are kept out by the number inputs, whose minimum is 0.  In every state
    reached through the widgets, every record of the ledger and every budget
    of the allocation is at least zero. *)
Theorem reachable_amounts_nonneg (s : state) :
  reachable s → amounts_nonneg s.
Proof.
  induction 1 as [|s ev _ IH Hw].
  - split; [intros e Hin | intros c v Hin]; inversion Hin.
  - apply run_keeps_amounts_nonneg; [done|]. by apply handler_writes_nonneg.
Qed.

Lemma reachable_amounts_nonneg_witness :
  amounts_nonneg
    (run init (handler (Submit_expense 738521%Z 250 "Groceries" "market") init)).
Proof.
  apply reachable_amounts_nonneg.
  apply reachable_step; [apply reachable_init|].
  split; [vm_compute; discriminate | in_list].
Defined.

(** * Further properties *)

(** ** The SIP summary and its table *)

Import InvestmentSummary.

(** The two value columns of the SIP frame, cell by cell. *)
Lemma sip_columns (float_pow : Q → Q → Q) (c a : Q) (years : nat) :
  Sip.Total_Investment (calculate_sip_returns float_pow c a years)
  = Spec.sip_invested c <$> seq 0 (years * 12)
  ∧ Sip.Investment_Value (calculate_sip_returns float_pow c a years)
    = Spec.sip_value c (monthly_rate_of float_pow a) <$> seq 0 (years * 12).
Proof.
  pose proof (sip_loop_correct c (monthly_rate_of float_pow a)
                (years * 12) (years * 12) ltac:(lia)) as Hinv.
  unfold calculate_sip_returns.
  destruct (foldl _ _ _) as [ti iv]. destruct Hinv as (Hl1 & Hl2 & Hn).
  simpl in *.
  split; apply list_eq; intros i; rewrite list_lookup_fmap;
    (destruct (decide (i < years * 12)%nat);
     [rewrite lookup_seq_lt by done; simpl; by apply Hn
     |rewrite lookup_seq_ge by lia; simpl; apply lookup_ge_None_2; lia]).
Qed.

Lemma last_fmap_seq {A} (f : nat → A) n :
  last (f <$> seq 0 n) = match n with O => None | S k => Some (f k) end.
Proof.
  destruct n as [|k]; [done|].
  rewrite seq_S, fmap_app. cbn [fmap list_fmap]. apply last_snoc.
Qed.

Lemma sip_invested_nonneg c n : 0 <= c → 0 <= Spec.sip_invested c n.
Proof. intros Hc. induction n as [|n IH]; simpl; lra. Qed.

Lemma sip_value_dominates c r n :
  0 <= c → 0 <= r → Spec.sip_invested c n <= Spec.sip_value c r n.
Proof.
  intros Hc Hr. induction n as [|n IH]; simpl; [lra|].
  pose proof (sip_invested_nonneg c n Hc) as Hn.
  assert (0 <= Spec.sip_value c r n * r) by (apply Qmult_le_0_compat; lra).
  lra.
Qed.

Lemma Qpower_succ (x : Q) (n : nat) :
  x ^ Z.of_nat (S n) == x ^ Z.of_nat n * x.
Proof.
  rewrite Nat2Z.inj_succ. unfold Z.succ.
  rewrite Qpower_plus' by lia. by rewrite Qpower_1_r.
Qed.

Lemma months_in_years (years : nat) :
  inject_Z (Z.of_nat (years * 12)) == inject_Z (Z.of_nat years) * 12.
Proof. rewrite Nat2Z.inj_mul, inject_Z_mult. reflexivity. Qed.

(** The summary, when there is one: the plan has a last month [k], whose
    cells give the final value and the amount invested. *)
Lemma sip_summary_Some (float_pow : Q → Q → Q) (c a : Q) (years : nat)
    (m : sip_metrics) :
  sip_summary float_pow c a years = Some m →
  ∃ k, (years * 12 = S k)%nat
    ∧ final_value m = Spec.sip_value c (monthly_rate_of float_pow a) k
    ∧ Spec.sip_invested c k == total_invested m
    ∧ wealth_gained m = final_value m - total_invested m.
Proof.
  destruct (sip_columns float_pow c a years) as [_ Hiv].
  unfold sip_summary, iloc_last. rewrite Hiv, last_fmap_seq.
  destruct (years * 12)%nat as [|k] eqn:E; [done|].
  intros [= <-]. exists k. cbn [final_value total_invested wealth_gained].
  split; [done|]. split; [done|]. split; [|done].
  rewrite sip_invested_times.
  replace (k + 1)%nat with (years * 12)%nat by lia.
  rewrite months_in_years. ring.
Qed.

(** X2.  With a contribution and a monthly rate that are not negative the
    projected value never falls below the amount paid in, month by month, so
    the "Wealth Gained" of the summary is not negative. *)
Theorem sip_value_covers_investment (float_pow : Q → Q → Q) (c a : Q)
    (years : nat) :
  0 <= c →
  0 <= monthly_rate_of float_pow a →
  (∀ n, (n < years * 12)%nat →
     ∃ invested value,
       Sip.Total_Investment (calculate_sip_returns float_pow c a years) !! n
       = Some invested
       ∧ Sip.Investment_Value (calculate_sip_returns float_pow c a years) !! n
         = Some value
       ∧ 0 <= invested ∧ invested <= value)
  ∧ (∀ m, sip_summary float_pow c a years = Some m → 0 <= wealth_gained m).
Proof.
  intros Hc Hr. split.
  - intros n Hn.
    destruct (sip_projection_refines float_pow c a years n Hn) as [Hti Hiv].
    eexists _, _. split; [exact Hti|]. split; [exact Hiv|].
    split; [by apply sip_invested_nonneg | by apply sip_value_dominates].
  - intros m Hm.
    destruct (sip_summary_Some float_pow c a years m Hm)
      as (k & _ & Hfinal & Heq & ->).
    rewrite Hfinal, <- Heq.
    pose proof (sip_value_dominates c (monthly_rate_of float_pow a) k Hc Hr).
    lra.
Qed.

Lemma sip_value_covers_investment_witness :
  ∃ m, sip_summary (λ x _, x) 500 8 2 = Some m ∧ 0 <= wealth_gained m.
Proof.
  destruct (sip_value_covers_investment (λ x _, x) 500 8 2) as [_ H].
  - vm_compute. discriminate.
  - vm_compute. discriminate.
  - destruct (sip_summary (λ x _, x) 500 8 2) as [m|] eqn:E.
    + exists m. split; [reflexivity|]. apply (H m eq_refl).
    + vm_compute in E. discriminate E.
Defined.

(** ** The inflation-adjusted values *)

(** Linear arithmetic over percentages: [x / 100] is [x * (1 # 100)]. *)
Ltac percent := unfold Qdiv in *; change (/ 100) with (1 # 100) in *; lra.

Lemma percent_is_zero (x : Q) : 1 + x / 100 == 0 ↔ x == -100.
Proof. split; intros H; percent. Qed.

Lemma ratio_is_one (x y : Q) : ¬ y == 0 → (x / y - 1 == 0 ↔ x == y).
Proof.
  intros Hy. split; intros H.
  - assert (E : x == (x / y - 1) * y + y) by (field; done).
    rewrite E, H. ring.
  - rewrite H. field. done.
Qed.

(** X4.  The inflation-adjusted value of the SIP summary raises
    [ZeroDivisionError] exactly when the inflation rate is -100% or equals
    the expected return; for every other input it returns the closed form of
    line 143. *)
Theorem inflation_adj_final_raises_iff (c a : Q) (years : nat) (i : Q) :
  (inflation_adj_final c a years i = Py.Raises Py.ZeroDivisionError
   ↔ i == -100 ∨ a == i)
  ∧ (¬ (i == -100 ∨ a == i) →
     ∃ rrr, real_return_rate a i = Py.Returns rrr
       ∧ ¬ rrr == 0
       ∧ rrr == (1 + a / 100) / (1 + i / 100) - 1
       ∧ inflation_adj_final c a years i
         = Py.Returns
             (c * (((1 + rrr) ^ Z.of_nat (years * 12) - 1) / rrr) * (1 + rrr))).
Proof.
  unfold inflation_adj_final, real_return_rate.
  destruct (Qeq_bool (1 + i / 100) 0) eqn:E1.
  - apply Qeq_bool_iff in E1.
    rewrite (div_by_zero _ _ E1). cbn [Py.bind].
    apply percent_is_zero in E1. split; [split; [by left | done]|].
    intros H. tauto.
  - assert (Hi : ¬ 1 + i / 100 == 0).
    { intros H. apply Qeq_bool_iff in H. congruence. }
    rewrite (div_returns _ _ Hi). cbn [Py.bind].
    assert (Hi' : ¬ i == -100) by (by rewrite <- percent_is_zero).
    destruct (Qeq_bool ((1 + a / 100) / (1 + i / 100) - 1) 0) eqn:E2.
    + apply Qeq_bool_iff in E2.
      rewrite (div_by_zero _ _ E2). cbn [Py.bind].
      apply (ratio_is_one _ _ Hi) in E2.
      assert (a == i) by percent.
      split; [split; [by right | done]|]. tauto.
    + assert (Hr : ¬ (1 + a / 100) / (1 + i / 100) - 1 == 0).
      { intros H. apply Qeq_bool_iff in H. congruence. }
      rewrite (div_returns _ _ Hr). cbn [Py.bind].
      split.
      * split; [done|]. intros [H|H]; [done|].
        exfalso. apply Hr. apply (ratio_is_one _ _ Hi). by rewrite H.
      * intros _. eexists. split; [reflexivity|]. split; [exact Hr|].
        split; reflexivity.
Qed.

Lemma inflation_adj_final_raises_iff_witness :
  ∃ rrr, real_return_rate 12 6 = Py.Returns rrr
    ∧ inflation_adj_final 1000 12 1 6
      = Py.Returns (1000 * (((1 + rrr) ^ 12 - 1) / rrr) * (1 + rrr)).
Proof.
  destruct (inflation_adj_final_raises_iff 1000 12 1 6) as [_ H].
  destruct H as (rrr & Hr & _ & _ & Hv).
  - intros [H|H]; vm_compute in H; discriminate H.
  - exists rrr. split; [exact Hr | exact Hv].
Defined.

(** ** What the SIP summary shows *)

Lemma sip_summary_None (float_pow : Q → Q → Q) (c a : Q) (years : nat) :
  sip_summary float_pow c a years = None ↔ years = 0%nat.
Proof.
  destruct (sip_columns float_pow c a years) as [_ Hiv].
  unfold sip_summary, iloc_last. rewrite Hiv, last_fmap_seq.
  destruct (years * 12)%nat as [|k] eqn:E.
  - split; [intros _; lia | done].
  - split; [done | intros ->; done].
Qed.

(** The two inflation lines: either the second one raises, or both
    return. *)
Lemma inflation_lines (c a : Q) (years : nat) (i : Q) :
  ((i == -100 ∨ a == i)
   ∧ inflation_adj_final c a years i = Py.Raises Py.ZeroDivisionError)
  ∨ (¬ (i == -100 ∨ a == i)
     ∧ ∃ rrr adj, real_return_rate a i = Py.Returns rrr
         ∧ ¬ rrr == 0
         ∧ inflation_adj_final c a years i = Py.Returns adj).
Proof.
  unfold inflation_adj_final, real_return_rate.
  destruct (Qeq_bool (1 + i / 100) 0) eqn:E1.
  - apply Qeq_bool_iff in E1.
    rewrite (div_by_zero _ _ E1). cbn [Py.bind].
    apply percent_is_zero in E1. left. split; [by left | done].
  - assert (Hi : ¬ 1 + i / 100 == 0).
    { intros H. apply Qeq_bool_iff in H. congruence. }
    rewrite (div_returns _ _ Hi). cbn [Py.bind].
    assert (Hi' : ¬ i == -100) by (by rewrite <- percent_is_zero).
    destruct (Qeq_bool ((1 + a / 100) / (1 + i / 100) - 1) 0) eqn:E2.
    + apply Qeq_bool_iff in E2.
      rewrite (div_by_zero _ _ E2). cbn [Py.bind].
      apply (ratio_is_one _ _ Hi) in E2.
      assert (a == i) by percent.
      left. split; [by right | done].
    + assert (Hr : ¬ (1 + a / 100) / (1 + i / 100) - 1 == 0).
      { intros H. apply Qeq_bool_iff in H. congruence. }
      rewrite (div_returns _ _ Hr). cbn [Py.bind].
      right. split.
      * intros [H|H]; [done|].
        apply Hr. apply (ratio_is_one _ _ Hi). by rewrite H.
      * eexists _, _. split; [reflexivity|]. split; [exact Hr | reflexivity].
Qed.

(** X1.  The summary of the SIP tab, in program order.  A plan of zero years
    fails on line 138 ([iloc[-1]] on an empty frame).  A plan of at least one
    year fails with [ZeroDivisionError] on lines 142-143, before any metric
    is displayed, exactly when the inflation rate is -100% or equals the
    expected return.  In every other case the metrics are displayed: the
    final value is the last cell of the value column, the wealth gained is
    the final value minus the amount invested, and both inflation lines
    returned, with a real return rate that is not zero. *)
Theorem sip_summary_shown (float_pow : Q → Q → Q) (c a : Q) (years : nat)
    (i : Q) :
  let view := show_sip_summary float_pow c a years i in
  (view = Index_error ↔ years = 0%nat)
  ∧ (view = Zero_division_error
     ↔ (0 < years)%nat ∧ (i == -100 ∨ a == i))
  ∧ (∀ m delta adj rrr, view = Sip_metrics m delta adj rrr →
       (0 < years)%nat
       ∧ ¬ (i == -100 ∨ a == i)
       ∧ sip_summary float_pow c a years = Some m
       ∧ last (Sip.Investment_Value (calculate_sip_returns float_pow c a years))
         = Some (final_value m)
       ∧ wealth_gained m = final_value m - total_invested m
       ∧ real_return_rate a i = Py.Returns rrr
       ∧ ¬ rrr == 0
       ∧ inflation_adj_final c a years i = Py.Returns adj).
Proof.
  intros view. unfold view, show_sip_summary.
  pose proof (sip_summary_None float_pow c a years) as Hnone.
  destruct (sip_summary float_pow c a years) as [m|] eqn:Em.
  - assert (Hy : (0 < years)%nat).
    { destruct years; [|lia]. by destruct (proj2 Hnone eq_refl). }
    assert (Hlast :
      last (Sip.Investment_Value (calculate_sip_returns float_pow c a years))
      = Some (final_value m) ∧ wealth_gained m = final_value m - total_invested m).
    { unfold sip_summary, iloc_last in Em.
      destruct (last _) as [v|]; [|done].
      cbn in Em. injection Em as <-. done. }
    destruct (inflation_lines c a years i)
      as [[Hz Hraise]|[Hnz (rrr & adj & Hrrr & Hrrr0 & Hadj)]].
    + assert (Hview :
        match real_return_rate a i with
        | Py.Raises _ => Zero_division_error
        | Py.Returns rrr =>
            match inflation_adj_final c a years i with
            | Py.Raises _ => Zero_division_error
            | Py.Returns adj =>
                Sip_metrics m
                  (ratio ← np_div (wealth_gained m) (total_invested m);
                   Some (ratio * 100)) adj rrr
            end
        end = Zero_division_error).
      { rewrite Hraise. by destruct (real_return_rate a i). }
      rewrite Hview.
      split; [split; [done | lia]|].
      split; [split; [done | done]|]. done.
    + rewrite Hrrr, Hadj.
      split; [split; [done | lia]|].
      split; [split; [done | intros [_ H]; done]|].
      intros m' delta adj' rrr' [= <- _ <- <-].
      destruct Hlast as [Hl Hw]. done.
  - assert (Hy : years = 0%nat) by (by apply Hnone).
    split; [done|]. split; [split; [done | lia]|]. done.
Qed.

Lemma sip_summary_shown_witness :
  show_sip_summary (λ x _, x) 1000 6 10 6 = Zero_division_error
  ∧ show_sip_summary (λ x _, x) 1000 12 0 6 = Index_error.
Proof.
  split.
  - destruct (sip_summary_shown (λ x _, x) 1000 6 10 6) as (_ & H & _).
    apply H. split; [lia | right; reflexivity].
  - destruct (sip_summary_shown (λ x _, x) 1000 12 0 6) as (H & _).
    by apply H.
Defined.

(** The value column of the lump-sum frame, cell by cell. *)
Lemma lumpsum_column (p a : Q) (years : nat) :
  Lumpsum.Investment_Value (calculate_lumpsum_returns p a years)
  = (λ y, p * (1 + a / 100) ^ Z.of_nat y) <$> seq 0 (years + 1).
Proof.
  pose proof (lumpsum_loop_correct p a (years + 1) (years + 1) ltac:(lia))
    as [Hlen Hval].
  unfold calculate_lumpsum_returns. simpl Lumpsum.Investment_Value.
  rewrite enumerate_seq, length_seq.
  apply list_eq. intros y. rewrite list_lookup_fmap.
  destruct (decide (y < years + 1)%nat).
  - rewrite lookup_seq_lt by done. by apply Hval.
  - rewrite lookup_seq_ge by lia. apply lookup_ge_None_2. lia.
Qed.

Lemma Qpower_nat_ge_1 (x : Q) (n : nat) : 1 <= x → 1 <= x ^ Z.of_nat n.
Proof. intros Hx. apply Qpower_1_le; [done | lia]. Qed.

(** X6.  With a principal and a rate that are not negative the lump-sum
    values never decrease from one year to the next, and the table of the
    tab has one row per year [0 .. years] whose "Wealth Gained" is the value
    minus the principal and is not negative. *)
Theorem lumpsum_never_loses (p a : Q) (years : nat) :
  0 <= p →
  0 <= a →
  (∀ y, (y < years)%nat →
     ∃ v v', Lumpsum.Investment_Value (calculate_lumpsum_returns p a years) !! y
             = Some v
       ∧ Lumpsum.Investment_Value (calculate_lumpsum_returns p a years) !! S y
         = Some v'
       ∧ v <= v')
  ∧ length (growth_table (calculate_lumpsum_returns p a years) p) = (years + 1)%nat
  ∧ (∀ y row, growth_table (calculate_lumpsum_returns p a years) p !! y = Some row →
       Growth.Year row = y
       ∧ Growth.Wealth_Gained row = Growth.Investment_Value row - p
       ∧ 0 <= Growth.Wealth_Gained row).
Proof.
  intros Hp Ha.
  assert (Hbase : 1 <= 1 + a / 100).
  { percent. }
  rewrite !lumpsum_column. split; [|split].
  - intros y Hy.
    exists (p * (1 + a / 100) ^ Z.of_nat y), (p * (1 + a / 100) ^ Z.of_nat (S y)).
    split; [by rewrite list_lookup_fmap, lookup_seq_lt by lia|].
    split; [by rewrite list_lookup_fmap, lookup_seq_lt by lia|].
    rewrite Qpower_succ.
    pose proof (Qpower_nat_ge_1 _ y Hbase) as Hy1.
    assert (0 <= p * (1 + a / 100) ^ Z.of_nat y * (a / 100)).
    { apply Qmult_le_0_compat; [apply Qmult_le_0_compat; lra | percent]. }
    lra.
  - unfold growth_table. rewrite length_fmap, length_zip_with, lumpsum_column.
    simpl Lumpsum.Year. rewrite length_fmap, length_seq. lia.
  - intros y row Hrow. unfold growth_table in Hrow.
    rewrite lumpsum_column in Hrow. simpl Lumpsum.Year in Hrow.
    rewrite list_lookup_fmap in Hrow.
    destruct (zip _ _ !! y) as [[year v]|] eqn:Hz; [|done].
    injection Hrow as <-.
    apply lookup_zip_with_Some in Hz as (year' & v' & [= <- <-] & Hyear & Hv).
    apply lookup_seq in Hyear as [-> Hlt].
    rewrite list_lookup_fmap, lookup_seq_lt in Hv by done.
    injection Hv as <-. cbn [growth_row Growth.Year Growth.Wealth_Gained
                               Growth.Investment_Value Nat.add].
    split; [done|]. split; [done|].
    pose proof (Qpower_nat_ge_1 _ y Hbase) as Hy1.
    assert (0 <= p * ((1 + a / 100) ^ Z.of_nat y - 1))
      by (apply Qmult_le_0_compat; lra).
    lra.
Qed.

Lemma lumpsum_never_loses_witness :
  length (growth_table (calculate_lumpsum_returns 100000 12 3) 100000) = 4%nat.
Proof.
  destruct (lumpsum_never_loses 100000 12 3) as (_ & Hlen & _).
  - vm_compute. discriminate.
  - vm_compute. discriminate.
  - exact Hlen.
Defined.

(** ** The yearly table of the SIP tab *)

Lemma sip_month_column (float_pow : Q → Q → Q) (c a : Q) (years : nat) :
  Sip.Month (calculate_sip_returns float_pow c a years) = seq 1 (years * 12).
Proof. unfold calculate_sip_returns. by destruct (foldl _ _ _). Qed.

(** The rows of the SIP frame, month by month. *)
Lemma sip_rows_cells (float_pow : Q → Q → Q) (c a : Q) (years : nat) :
  sip_rows (calculate_sip_returns float_pow c a years)
  = (λ n, (S n, Spec.sip_invested c n,
           Spec.sip_value c (monthly_rate_of float_pow a) n))
      <$> seq 0 (years * 12).
Proof.
  unfold sip_rows.
  destruct (sip_columns float_pow c a years) as [-> ->].
  rewrite sip_month_column, <- fmap_S_seq.
  apply list_eq. intros i.
  rewrite !lookup_zip_with, !list_lookup_fmap.
  by destruct (seq 0 (years * 12) !! i).
Qed.

Lemma not_year_end (y k : nat) : (k < 11)%nat → (S (k + y * 12) mod 12 ≠ 0)%nat.
Proof.
  intros Hk. change (S (k + y * 12)) with (S k + y * 12)%nat.
  rewrite Nat.Div0.mod_add, Nat.mod_small by lia. lia.
Qed.

Lemma year_end (y : nat) : (S (11 + y * 12) mod 12 = 0)%nat.
Proof.
  change (S (11 + y * 12)) with (12 + y * 12)%nat.
  by rewrite Nat.Div0.mod_add.
Qed.

Lemma year_end_rows {A B} (g : nat → nat * A * B) (years : nat) :
  (∀ n, (g n).1.1 = S n) →
  filter (λ r : nat * A * B, (r.1.1 mod 12 = 0)%nat) (g <$> seq 0 (years * 12))
  = (λ j, g (j * 12 + 11)%nat) <$> seq 0 years.
Proof.
  intros Hg. induction years as [|y IH]; [done|].
  replace (S y * 12)%nat with (y * 12 + 12)%nat by lia.
  rewrite seq_app, fmap_app, filter_app, IH, (seq_S y 0), fmap_app.
  f_equal. cbn [Nat.add seq fmap list_fmap].
  do 11 (rewrite filter_cons_False;
         [|cbn beta; rewrite Hg;
           first [apply (not_year_end y 0) | apply (not_year_end y 1)
                 |apply (not_year_end y 2) | apply (not_year_end y 3)
                 |apply (not_year_end y 4) | apply (not_year_end y 5)
                 |apply (not_year_end y 6) | apply (not_year_end y 7)
                 |apply (not_year_end y 8) | apply (not_year_end y 9)
                 |apply (not_year_end y 10)]; lia]).
  rewrite filter_cons_True, filter_nil
    by (cbn beta; rewrite Hg; apply (year_end y)).
  do 2 f_equal. lia.
Qed.

(** X7.  The table "View detailed growth data" of the SIP tab has one row per
    year of the plan.  The row of year [y] is the row of month [12 * y] of
    the frame: its invested amount is [12 * y] contributions, its value is
    the cell of that month, and its gain is the difference of the two. *)
Theorem yearly_data_rows (float_pow : Q → Q → Q) (c a : Q) (years : nat) :
  length (yearly_data (calculate_sip_returns float_pow c a years)) = years
  ∧ ∀ j, (j < years)%nat →
      ∃ row,
        yearly_data (calculate_sip_returns float_pow c a years) !! j = Some row
        ∧ Yearly.Year row = (j + 1)%nat
        ∧ Yearly.Total_Investment row
          == inject_Z (Z.of_nat (12 * (j + 1))) * c
        ∧ Sip.Investment_Value (calculate_sip_returns float_pow c a years)
            !! (12 * (j + 1) - 1)%nat
          = Some (Yearly.Investment_Value row)
        ∧ Yearly.Wealth_Gained row
          = Yearly.Investment_Value row - Yearly.Total_Investment row.
Proof.
  unfold yearly_data. rewrite sip_rows_cells.
  rewrite year_end_rows by done.
  split; [by rewrite !length_fmap, length_seq|].
  intros j Hj. eexists. split.
  { rewrite !list_lookup_fmap, lookup_seq_lt by done. reflexivity. }
  cbn [yearly_row Yearly.Year Yearly.Total_Investment Yearly.Investment_Value
       Yearly.Wealth_Gained Nat.add].
  split; [|split; [|split; [|done]]].
  - replace (S (j * 12 + 11)) with ((j + 1) * 12)%nat by lia.
    by rewrite Nat.div_mul.
  - rewrite sip_invested_times.
    by replace (j * 12 + 11 + 1)%nat with (12 * (j + 1))%nat by lia.
  - destruct (sip_columns float_pow c a years) as [_ ->].
    rewrite list_lookup_fmap, lookup_seq_lt by lia.
    by replace (12 * (j + 1) - 1)%nat with (j * 12 + 11)%nat by lia.
Qed.

Lemma yearly_data_rows_witness :
  ∃ row, yearly_data (calculate_sip_returns (λ x _, x) 500 8 2) !! 1%nat = Some row
    ∧ Yearly.Year row = 2%nat.
Proof.
  destruct (yearly_data_rows (λ x _, x) 500 8 2) as [_ H].
  destruct (H 1%nat ltac:(lia)) as (row & Hrow & Hyear & _).
  exists row. split; [exact Hrow | exact Hyear].
Defined.

(** ** Sums *)

Lemma foldl_Qplus_shift (l : list Q) (a x : Q) :
  foldl Qplus (a + x) l = x + foldl Qplus a l.
Proof.
  revert a. induction l as [|y l IH]; intros a; simpl.
  - apply Qplus_comm_eq.
  - by rewrite foldl_Qplus_swap, IH.
Qed.

Lemma sum_cons (x : Q) (l : list Q) : Py.sum (x :: l) = x + Py.sum l.
Proof. unfold Py.sum. simpl. apply foldl_Qplus_shift. Qed.

Lemma sum_nonneg (l : list Q) : Forall (λ x, 0 <= x) l → 0 <= Py.sum l.
Proof.
  induction 1 as [|x l Hx _ IH]; [done|]. rewrite sum_cons. lra.
Qed.


(** ** Colour and message of a budget row *)

Lemma percent_times_budget (spent budget : Q) :
  0 < budget → spent * 100 == spent / budget * 100 * budget.
Proof. intros Hb. field. lra. Qed.

Lemma percentage_of_cases (spent budget : Q) :
  0 < budget →
  (spent < budget ∧ percentage_of spent budget = spent / budget * 100)
  ∨ (budget <= spent ∧ percentage_of spent budget = 100).
Proof.
  intros Hb. unfold percentage_of, Py.min.
  rewrite (proj2 (py_gt_iff budget 0) Hb).
  pose proof (percent_times_budget spent budget Hb) as E.
  destruct (Py.lt (spent / budget * 100) 100) eqn:Hlt.
  - left. apply py_lt_iff in Hlt. split; [nra | done].
  - right. apply py_lt_false in Hlt. split; [nra | done].
Qed.

(** X9.  In the budget report the message "Over budget" is shown exactly on
    the rows whose spending exceeds the budget; such a row has a full bar
    (100%), is red, and the excess shown is [spent - budget].  "Only ...
    left" is shown only when nothing is overspent: the amount shown is
    [budget - spent], it is not negative and it is below a fifth of the
    budget. *)
Theorem over_budget_message (allocation spending : Dict.t Q)
    (row : status_row) :
  row ∈ budget_status allocation spending →
  ((∃ over, row_alert row = Some (Over_budget_by over))
   ↔ row_budget row < row_spent row)
  ∧ (∀ over, row_alert row = Some (Over_budget_by over) →
       over == row_spent row - row_budget row
       ∧ row_percentage row == 100
       ∧ row_color row = red)
  ∧ (∀ left, row_alert row = Some (Only_left left) →
       left = row_budget row - row_spent row
       ∧ 0 <= left
       ∧ left < row_budget row * 0.2).
Proof.
  intros Hrow. unfold budget_status, Dict.items in Hrow.
  apply list_elem_of_omap in Hrow as ([category budget] & _ & Hrow).
  apply status_of_Some in Hrow as [Hb ->].
  cbn [row_alert row_color row_percentage row_spent row_budget].
  set (spent := Dict.get_default spending category 0).
  pose proof (color_of_thresholds (percentage_of spent budget)) as (_ & _ & Hr).
  assert (Hover : budget - spent < 0 → percentage_of spent budget == 100).
  { intros Hlt.
    destruct (percentage_of_cases spent budget Hb) as [[Hs ->]|[Hs ->]];
      [lra | reflexivity]. }
  unfold alert_of. fold spent.
  destruct (Py.lt (budget - spent) 0) eqn:E1.
  - apply py_lt_iff in E1. specialize (Hover E1).
    split; [|split].
    + split; [intros _; lra | intros _; by eexists].
    + intros over Hov.
      assert (over = Qabs (budget - spent)) as ->
        by (unfold Py.abs in Hov; congruence).
      pose proof (Qabs_neg (budget - spent) ltac:(lra)) as Habs.
      split; [lra|]. split; [done|]. apply Hr. lra.
    + intros left Hl. discriminate Hl.
  - apply py_lt_false in E1.
    destruct (Py.lt (budget - spent) (budget * 0.2)) eqn:E2.
    + apply py_lt_iff in E2.
      split; [|split].
      * split; [intros [over Hov]; discriminate Hov | intros Hlt; lra].
      * intros over Hov. discriminate Hov.
      * intros left [= <-]. done.
    + split; [|split].
      * split; [intros [over Hov]; discriminate Hov | intros Hlt; lra].
      * intros over Hov. discriminate Hov.
      * intros left Hl. discriminate Hl.
Qed.

Lemma over_budget_message_witness :
  ∃ row,
    budget_status [("Shopping"%string, 500)] [("Shopping"%string, 650)] = [row]
    ∧ row_alert row = Some (Over_budget_by 150)
    ∧ row_percentage row == 100
    ∧ row_color row = red.
Proof.
  eexists. split; [vm_compute; reflexivity|]. split; [reflexivity|].
  edestruct (over_budget_message
               [("Shopping"%string, 500)] [("Shopping"%string, 650)])
    as (_ & Hover & _).
  { vm_compute. left. }
  destruct (Hover 150 eq_refl) as (_ & Hp & Hc).
  split; [exact Hp | exact Hc].
Defined.

(** ** The session store only grows *)

Import Store.

Lemma dict_set_keys_prefix {V} (d : Dict.t V) k v :
  Dict.keys d `prefix_of` Dict.keys (Dict.set d k v).
Proof.
  unfold Dict.keys. induction d as [|[k' v'] d IH]; simpl.
  - apply prefix_nil.
  - case_decide; simpl; [by subst | by apply prefix_cons].
Qed.

Lemma extends_refl s : extends s s.
Proof. by repeat split. Qed.

Lemma extends_trans s1 s2 s3 : extends s1 s2 → extends s2 s3 → extends s1 s3.
Proof.
  intros (H1 & H2 & H3) (H1' & H2' & H3').
  repeat split; by etrans.
Qed.

Lemma apply_extends s m : registered_write s m → extends s (apply s m).
Proof.
  intros Hm. destruct m as [cs|c|c v|e]; simpl in *; repeat split; simpl;
    try done.
  - unfold registry at 1. rewrite Hm. apply prefix_nil.
  - unfold registry at 2. simpl. by apply prefix_app_r.
  - apply dict_set_keys_prefix.
  - by apply prefix_app_r.
Qed.

Lemma run_extends ms : ∀ s, guarded s ms → extends s (run s ms).
Proof.
  induction ms as [|m ms IH]; intros s Hg; [apply extends_refl|].
  destruct Hg as [Hm Hg]. simpl.
  eapply extends_trans; [by apply apply_extends | by apply IH].
Qed.

Lemma run_budget_sets_expenses (f : string → Q) cs : ∀ s,
  expenses (run s ((λ c, Budget_set c (f c)) <$> cs)) = expenses s
  ∧ budget_categories (run s ((λ c, Budget_set c (f c)) <$> cs))
    = budget_categories s.
Proof.
  unfold run. induction cs as [|c cs IH]; intros s; [done|].
  rewrite fmap_cons. cbn [foldl].
  destruct (IH (apply s (Budget_set c (f c)))) as [-> ->]. done.
Qed.

(** X11.  No page ever removes, edits or reorders what the session holds:
    after any event the old ledger, the old registry and the old keys of the
    allocation are still there, in front.  Submitting an expense appends
    exactly one record and touches neither budgets nor registry; rendering
    the budget page leaves the ledger as it is. *)
Theorem session_only_grows (s : state) (ev : event) :
  expenses s `prefix_of` expenses (run s (handler ev s))
  ∧ registry s `prefix_of` registry (run s (handler ev s))
  ∧ Dict.keys (budgets s) `prefix_of` Dict.keys (budgets (run s (handler ev s)))
  ∧ match ev with
    | Submit_expense date amount category description =>
        run s (handler ev s)
        = {| expenses :=
               expenses s ++ [{| date := date; amount := amount;
                                 category := category;
                                 description := description |}];
             budgets := budgets s;
             budget_categories := budget_categories s |}
    | Render_budget_page _ => expenses (run s (handler ev s)) = expenses s
    end.
Proof.
  destruct (run_extends (handler ev s) s (guarded_handler ev s))
    as (H1 & H2 & H3).
  split; [done|]. split; [done|]. split; [done|].
  destruct ev as [d a c desc|inp]; [done|].
  simpl. unfold run. rewrite foldl_app. fold (run s (init_categories s)).
  set (s1 := run s (init_categories s)).
  assert (Hs1 : expenses s1 = expenses s).
  { unfold s1, init_categories. by destruct (budget_categories s). }
  unfold budget_form. rewrite foldl_app.
  fold (run s1 ((λ c, Budget_set c (new_budget inp c)) <$> registry s1)).
  destruct (run_budget_sets_expenses (new_budget inp) (registry s1) s1)
    as [He _].
  rewrite <- Hs1, <- He.
  unfold save_custom_category.
  destruct (submit_button inp); [|done]. by destruct (_ && _).
Qed.

(** ** The budget page, as one step *)

Lemma run_budget_sets (f : string → Q) cs : ∀ s,
  run s ((λ c, Budget_set c (f c)) <$> cs)
  = {| expenses := expenses s;
       budgets := write_all f cs (budgets s);
       budget_categories := budget_categories s |}.
Proof.
  unfold run, write_all. induction cs as [|c cs IH]; intros s.
  - by destruct s.
  - rewrite fmap_cons. cbn [foldl]. by rewrite IH.
Qed.

(** The state after one rendering of the budget page. *)
Lemma render_budget_page_state (inp : form_input) (s : state) :
  run s (handler (Render_budget_page inp) s)
  = {| expenses := expenses s;
       budgets :=
         if adds_category inp s
         then Dict.set (write_all (new_budget inp) (seeded s) (budgets s))
                       (new_category inp) (new_category_budget inp)
         else write_all (new_budget inp) (seeded s) (budgets s);
       budget_categories :=
         Some (if adds_category inp s
               then seeded s ++ [new_category inp]
               else seeded s) |}.
Proof.
  cbn [handler]. unfold run. rewrite foldl_app.
  fold (run s (init_categories s)).
  set (s1 := run s (init_categories s)).
  assert (Hs1 : s1 = {| expenses := expenses s; budgets := budgets s;
                        budget_categories := Some (seeded s) |}).
  { unfold s1, init_categories, seeded.
    destruct s as [es bs [R|]]; done. }
  unfold budget_form. rewrite foldl_app.
  fold (run s1 ((λ c, Budget_set c (new_budget inp c)) <$> registry s1)).
  rewrite run_budget_sets.
  assert (Hr : registry s1 = seeded s) by (by rewrite Hs1).
  rewrite Hr. unfold save_custom_category, adds_category.
  rewrite Hs1. cbn [expenses budgets budget_categories].
  destruct (submit_button inp); [|done].
  destruct (Py.truthy_str (new_category inp)); [|done].
  cbn [andb]. by destruct (bool_decide _).
Qed.

Lemma write_all_get (f : string → Q) cs : ∀ (d : Dict.t Q) c,
  Dict.get (write_all f cs d) c
  = if decide (c ∈ cs) then Some (f c) else Dict.get d c.
Proof.
  unfold write_all. induction cs as [|c0 cs IH]; intros d c; [done|].
  cbn [foldl]. rewrite IH, dict_get_set.
  destruct (decide (c ∈ cs)) as [Hin|Hnin].
  - by rewrite decide_True by (by right).
  - destruct (decide (c = c0)) as [->|Hne].
    + by rewrite decide_True by left.
    + rewrite decide_False; [done|]. by intros [?|?]%elem_of_cons.
Qed.

Lemma dict_set_same {V} (d : Dict.t V) k v :
  Dict.get d k = Some v → Dict.set d k v = d.
Proof.
  induction d as [|[k' v'] d IH]; simpl; [done|].
  case_decide as Hk.
  - intros [= ->]. by subst.
  - intros H. by rewrite IH.
Qed.

Lemma write_all_same (f : string → Q) cs : ∀ (d : Dict.t Q),
  (∀ c, c ∈ cs → Dict.get d c = Some (f c)) → write_all f cs d = d.
Proof.
  unfold write_all. induction cs as [|c cs IH]; intros d Hd; [done|].
  cbn [foldl]. rewrite dict_set_same by (apply Hd; left).
  apply IH. intros c' Hc'. apply Hd. by right.
Qed.

Lemma adds_category_new (inp : form_input) (s : state) :
  adds_category inp s = true → new_category inp ∉ seeded s.
Proof.
  unfold adds_category. intros H.
  apply andb_prop in H as [_ H]. by apply bool_decide_eq_true in H.
Qed.

(** X12.  What the budget page saves can be read back: after a rendering,
    every category that was registered holds the budget entered for it; a
    custom category that is new is registered last and holds the custom
    budget; a custom category that is empty, already registered, or not
    submitted changes neither the registry nor any other budget. *)
Theorem saved_budgets_read_back (inp : form_input) (s : state) :
  let s' := set_budgets inp s in
  (∀ c, c ∈ seeded s → Dict.get (budgets s') c = Some (new_budget inp c))
  ∧ (adds_category inp s = true →
       registry s' = seeded s ++ [new_category inp]
       ∧ Dict.get (budgets s') (new_category inp)
         = Some (new_category_budget inp))
  ∧ (adds_category inp s = false →
       registry s' = seeded s
       ∧ ∀ c, c ∉ seeded s → Dict.get (budgets s') c = Dict.get (budgets s) c).
Proof.
  intros s'. unfold s'. rewrite set_budgets_handler, render_budget_page_state.
  cbn [budgets registry budget_categories default].
  destruct (adds_category inp s) eqn:Hadd.
  - apply adds_category_new in Hadd.
    split; [|split; [|done]].
    + intros c Hc.
      rewrite dict_get_set, decide_False by (by intros ->).
      by rewrite write_all_get, decide_True.
    + intros _. split; [done|]. by rewrite dict_get_set, decide_True.
  - split; [|split; [done|]].
    + intros c Hc. by rewrite write_all_get, decide_True.
    + intros _. split; [done|]. intros c Hc.
      by rewrite write_all_get, decide_False.
Qed.

Lemma saved_budgets_read_back_witness :
  let inp := {| new_budget := λ _, 1500; new_category := "Travel";
                new_category_budget := 800; submit_button := true |} in
  Dict.get (budgets (set_budgets inp init)) "Travel" = Some 800
  ∧ Dict.get (budgets (set_budgets inp init)) "Health" = Some 1500.
Proof.
  intros inp.
  destruct (saved_budgets_read_back inp init) as (Hold & Hnew & _).
  split.
  - apply Hnew. reflexivity.
  - apply Hold. in_list.
Defined.

(** X13.  Rendering the budget page again without changing anything leaves
    the session as it is: when the registry is seeded, every number input
    shows the stored budget of its category, and no new custom category is
    submitted, not a single value of the store changes. *)
Theorem rerender_changes_nothing (inp : form_input) (s : state) :
  budget_categories s ≠ None →
  (∀ c, c ∈ registry s → Dict.get (budgets s) c = Some (new_budget inp c)) →
  adds_category inp s = false →
  set_budgets inp s = s.
Proof.
  intros Hseed Hshown Hadd.
  rewrite set_budgets_handler, render_budget_page_state, Hadd.
  destruct s as [es bs [R|]]; [|done].
  cbn [expenses budgets budget_categories seeded default] in *.
  by rewrite write_all_same.
Qed.

Lemma rerender_changes_nothing_witness :
  let inp := {| new_budget := λ _, 1500; new_category := "";
                new_category_budget := 0; submit_button := false |} in
  set_budgets inp (set_budgets inp init) = set_budgets inp init.
Proof.
  intros inp. apply rerender_changes_nothing.
  - vm_compute. discriminate.
  - intros c Hc. apply list_elem_of_In in Hc. vm_compute in Hc.
    repeat (destruct Hc as [<-|Hc]; [vm_compute; reflexivity|]).
    destruct Hc.
  - reflexivity.
Defined.

(** ** What holds in every reachable state *)

Lemma default_categories_NoDup : NoDup default_categories.
Proof.
  apply (bool_decide_unpack (NoDup default_categories)). vm_compute. exact I.
Qed.

Lemma submit_expense_state (s : state) date amount category description :
  run s (handler (Submit_expense date amount category description) s)
  = {| expenses :=
         expenses s ++ [{| date := date; amount := amount;
                           category := category; description := description |}];
       budgets := budgets s;
       budget_categories := budget_categories s |}.
Proof. reflexivity. Qed.

(** The registry has no duplicates and, once seeded, starts with the ten
    defaults; every recorded category is one of the select box. *)
Lemma reachable_shape (s : state) :
  reachable s →
  NoDup (registry s)
  ∧ (∀ R, budget_categories s = Some R → default_categories `prefix_of` R)
  ∧ (∀ e, e ∈ expenses s → category e ∈ ExpenseTracker.categories).
Proof.
  induction 1 as [|s ev _ (Hnd & Hpre & Hcat) Hw].
  - split; [apply NoDup_nil_2|]. split; [done|]. intros e He. inversion He.
  - assert (Hseed : NoDup (seeded s) ∧ default_categories `prefix_of` seeded s).
    { unfold seeded. destruct (budget_categories s) as [R|] eqn:E; simpl.
      - split; [|by apply Hpre]. unfold registry in Hnd. by rewrite E in Hnd.
      - split; [apply default_categories_NoDup | done]. }
    destruct Hseed as [Hnd' Hpre'].
    destruct ev as [d a c desc|inp].
    + rewrite submit_expense_state.
      split; [done|]. split; [done|]. cbn [expenses].
      intros e [He|He%list_elem_of_singleton]%elem_of_app; [by apply Hcat|].
      subst e. apply Hw.
    + rewrite render_budget_page_state.
      cbn [registry budget_categories expenses default].
      destruct (adds_category inp s) eqn:Hadd.
      * apply adds_category_new in Hadd.
        split; [|split; [|done]].
        -- apply NoDup_app. split; [done|]. split; [|apply NoDup_singleton].
           intros x Hx ->%list_elem_of_singleton. done.
        -- intros R [= <-]. by apply prefix_app_r.
      * split; [done|]. split; [|done]. by intros R [= <-].
Qed.

Lemma reachable_nonneg (s : state) : reachable s → amounts_nonneg s.
Proof.
  induction 1 as [|s ev _ IH Hw].
  - split; [intros e Hin | intros c v Hin]; inversion Hin.
  - apply run_keeps_amounts_nonneg; [done|]. by apply handler_writes_nonneg.
Qed.

(** X14.  In every reachable state the category registry has no duplicate,
    starts with the ten predefined categories as soon as the budget page has
    been rendered once, and contains the category of every recorded expense
    from then on. *)
Theorem registry_well_formed (s : state) :
  reachable s →
  NoDup (registry s)
  ∧ (budget_categories s ≠ None →
       default_categories `prefix_of` registry s
       ∧ ∀ e, e ∈ expenses s → category e ∈ registry s).
Proof.
  intros Hs. destruct (reachable_shape s Hs) as (Hnd & Hpre & Hcat).
  split; [done|]. intros Hseed.
  destruct (budget_categories s) as [R|] eqn:E; [|done].
  unfold registry. rewrite E. cbn [default].
  split; [by apply Hpre|]. intros e He.
  destruct (Hpre R eq_refl) as [k ->].
  apply elem_of_app. left. by apply Hcat.
Qed.

Lemma registry_well_formed_witness :
  let inp := {| new_budget := λ _, 1500; new_category := "Travel";
                new_category_budget := 800; submit_button := true |} in
  NoDup (registry (run init (handler (Render_budget_page inp) init))).
Proof.
  intros inp.
  apply (registry_well_formed (run init (handler (Render_budget_page inp) init))).
  apply reachable_step; [apply reachable_init|].
  split; [intros c|]; vm_compute; discriminate.
Defined.

(** ** An expense, once submitted *)

Import ExpenseDetails.

#[local] Instance by_date_descending_total : Total by_date_descending.
Proof. intros e1 e2. unfold by_date_descending. lia. Qed.

#[local] Instance by_date_descending_trans : Transitive by_date_descending.
Proof. intros e1 e2 e3. unfold by_date_descending. lia. Qed.

(** X15.  After an expense is submitted, the history under "All time" with
    every category selected works on the earlier records followed by the new
    one (this is the frame that is totalled, charted and exported), and the
    table below it lists exactly these records, the new one included, sorted
    by date with the most recent first. *)
Theorem submitted_expense_is_listed (s : state) (today date : Calendar.date)
    (amount : Q) (category description : string) :
  let record := {| date := date; amount := amount; category := category;
                   description := description |} in
  let s' := run s (handler (Submit_expense date amount category description) s) in
  let selection := all_categories (expenses s') in
  expense_history today All_time selection s'
  = Listing (expenses s ++ [record])
            (ExpenseTracker.total (expenses s ++ [record]))
  ∧ ∃ table,
      display_df today All_time selection s' = Some table
      ∧ table ≡ₚ expenses s ++ [record]
      ∧ StronglySorted by_date_descending table
      ∧ record ∈ table
      ∧ (∀ e, e ∈ expenses s → e ∈ table).
Proof.
  intros record s' selection.
  assert (Hview : expense_history today All_time selection s'
                  = Listing (expenses s ++ [record])
                            (ExpenseTracker.total (expenses s ++ [record]))).
  { unfold selection, s'. rewrite submit_expense_state. fold record.
    unfold expense_history, filtered_expenses. cbn [expenses apply_date_filter].
    rewrite apply_category_filter_all. by destruct (expenses s). }
  split; [exact Hview|].
  exists (merge_sort by_date_descending (expenses s ++ [record])).
  split; [unfold display_df; by rewrite Hview|].
  split; [apply merge_sort_Permutation|].
  split; [apply StronglySorted_merge_sort; apply _|].
  split.
  - rewrite merge_sort_Permutation. apply elem_of_app. right. left.
  - intros e He. rewrite merge_sort_Permutation. apply elem_of_app. by left.
Qed.

(** ** The dashboard *)





(** Across midnight at the end of a month: the month is read on 31 January,
    the date on 1 February.  An expense of 1 February then counts for today
    but not for the month. *)
Lemma dashboard_month_rollover :
  ∃ m, Dashboard.summary (Calendar.month 738551%Z) (Calendar.year 738551%Z) 738552%Z
         (run init (handler (Submit_expense 738552%Z 250 "Groceries" "market") init))
       = Some m
    ∧ Dashboard.monthly_expenses m == 0
    ∧ Dashboard.today_expenses m == 250.
Proof. eexists. split; [vm_compute; reflexivity|]. split; reflexivity. Qed.

(** ** The overall budget summary *)

Import BudgetSummary.

Lemma dict_set_fresh {V} (d : Dict.t V) k v :
  k ∉ Dict.keys d → Dict.set d k v = d ++ [(k, v)].
Proof.
  unfold Dict.keys. induction d as [|[k' v'] d IH]; simpl; [done|].
  intros Hk. apply not_elem_of_cons in Hk as [Hne Hk].
  rewrite decide_False by done. by rewrite IH.
Qed.

Lemma category_spending_from (monthly_expenses : list expense) R :
  ∀ acc : Dict.t Q,
    NoDup R →
    (∀ c, c ∈ R → c ∉ Dict.keys acc) →
    foldl (λ acc c,
             let category_expenses :=
               filter (λ e, category e = c) monthly_expenses in
             let total_spent :=
               match category_expenses with
               | [] => 0
               | _ => ExpenseTracker.total category_expenses
               end in
             Dict.set acc c total_spent)
          acc R
    = acc ++ ((λ c, (c, ExpenseTracker.total
                          (filter (λ e, category e = c) monthly_expenses)))
                <$> R).
Proof.
  induction R as [|c R IH]; intros acc Hnd Hfresh.
  - by rewrite app_nil_r.
  - apply NoDup_cons in Hnd as [Hc Hnd]. cbn [foldl].
    rewrite dict_set_fresh by (apply Hfresh; left).
    rewrite IH; [|done|].
    + rewrite <- app_assoc, fmap_cons. cbn zeta. f_equal.
      cbn [app]. do 2 f_equal.
      by destruct (filter _ monthly_expenses).
    + intros c' Hc'. unfold Dict.keys. rewrite fmap_app.
      intros [Hin|Hin%list_elem_of_singleton]%elem_of_app.
      * by apply (Hfresh c'); [right|].
      * simpl in Hin. by subst.
Qed.

(** The per-category totals of the period, one entry per registered
    category. *)
Lemma category_spending_items (monthly_expenses : list expense) R :
  NoDup R →
  category_spending R monthly_expenses
  = (λ c, (c, ExpenseTracker.total
                (filter (λ e, category e = c) monthly_expenses))) <$> R.
Proof.
  intros Hnd. unfold category_spending.
  rewrite category_spending_from; [done..|].
  intros c _. apply not_elem_of_nil.
Qed.

(** Splitting a list by a key loses and duplicates nothing: the groups of
    the keys of [ks], one after the other, hold the elements of the list. *)
Lemma partition_by_key {A} (key : A → string) (ks : list string) :
  NoDup ks →
  ∀ l : list A,
    (∀ x, x ∈ l → key x ∈ ks) →
    concat ((λ k, filter (λ x, key x = k) l) <$> ks) ≡ₚ l.
Proof.
  induction 1 as [|k ks Hk Hnd IH]; intros l Hl.
  - destruct l as [|x l]; [done|].
    specialize (Hl x ltac:(left)). inversion Hl.
  - rewrite fmap_cons. cbn [concat].
    etrans; [|apply (filter_app_complement (λ x, key x = k))].
    apply Permutation_app_head.
    assert (E : (λ k', filter (λ x, key x = k') l) <$> ks
                = (λ k', filter (λ x, key x = k')
                           (filter (λ x, ¬ key x = k) l)) <$> ks).
    { apply list_fmap_ext. intros j k' Hk'.
      apply list_elem_of_lookup_2 in Hk'.
      assert (Hne : k' ≠ k) by (by intros ->).
      clear -Hne. induction l as [|x l IHl]; [done|].
      rewrite !filter_cons.
      destruct (decide (key x = k')) as [E|E].
      - rewrite decide_True by congruence.
        rewrite filter_cons, decide_True by done. by rewrite IHl.
      - destruct (decide (¬ key x = k)); [|done].
        rewrite filter_cons, decide_False by done. done. }
    rewrite E. apply IH.
    intros x [Hx Hin]%list_elem_of_filter.
    specialize (Hl x Hin). apply elem_of_cons in Hl as [Hl|Hl]; done.
Qed.

(** X17.  In a reachable session whose registry is seeded, the spending of
    the budget analysis has one entry per registered category, in the order
    of the registry, holding the total of the expenses of that category in
    the period (0 when there is none).  These groups split the expenses of
    the period: every expense of the period belongs to the group of exactly
    one registered category, so "Total Spent", the sum of the entries, counts
    every expense of the period once. *)
Theorem total_spent_covers_the_period (period : budget_period)
    (today : Calendar.date) (s : state) :
  reachable s →
  budget_categories s ≠ None →
  let rows := period_expenses period today (expenses s) in
  let spending := category_spending (registry s) rows in
  spending
  = (λ c, (c, ExpenseTracker.total (filter (λ e, category e = c) rows)))
      <$> registry s
  ∧ concat ((λ c, filter (λ e, category e = c) rows) <$> registry s) ≡ₚ rows
  ∧ total_spent (overall_summary (budgets s) spending)
    = Py.sum (Dict.values spending).
Proof.
  intros Hs Hseed rows spending.
  destruct (reachable_shape s Hs) as (Hnd & Hpre & Hcat).
  split; [by apply category_spending_items|]. split; [|done].
  apply partition_by_key; [done|]. intros e He.
  assert (He' : e ∈ expenses s).
  { unfold rows in He.
    destruct period; apply list_elem_of_filter in He as [_ He]; done. }
  destruct (budget_categories s) as [R|] eqn:E; [|done].
  unfold registry. rewrite E. cbn [default].
  destruct (Hpre R eq_refl) as [k ->].
  apply elem_of_app. left. by apply Hcat.
Qed.

Lemma total_spent_covers_the_period_witness :
  let inp := {| new_budget := λ _, 1500; new_category := "";
                new_category_budget := 0; submit_button := false |} in
  let s0 :=
    run init (handler (Submit_expense 738521%Z 250 "Groceries" "market") init) in
  let s := run s0 (handler (Render_budget_page inp) s0) in
  let rows := period_expenses Monthly 738530%Z (expenses s) in
  concat ((λ c, filter (λ e, category e = c) rows) <$> registry s) ≡ₚ rows.
Proof.
  intros inp s0 s rows.
  destruct (total_spent_covers_the_period Monthly 738530%Z s) as (_ & H & _).
  - apply reachable_step.
    + apply reachable_step; [apply reachable_init|].
      split; [vm_compute; discriminate | in_list].
    + split; [intros c|]; vm_compute; discriminate.
  - vm_compute. discriminate.
  - exact H.
Defined.

(** ** The report and the total budget *)

Lemma budget_status_budgets (allocation spending : Dict.t Q) :
  row_budget <$> budget_status allocation spending
  = (filter (λ item, 0 < item.2) allocation).*2.
Proof.
  unfold budget_status, Dict.items.
  induction allocation as [|[category budget] allocation IH]; [done|].
  rewrite filter_cons. simpl.
  destruct (Py.gt budget 0) eqn:E.
  - apply py_gt_iff in E. rewrite decide_True by done.
    simpl. f_equal. exact IH.
  - rewrite decide_False; [done|]. intros H. apply py_gt_iff in H. congruence.
Qed.

Lemma sum_positive_part (items : list (string * Q)) :
  (∀ c v, (c, v) ∈ items → 0 <= v) →
  Py.sum (items.*2) == Py.sum ((filter (λ item, 0 < item.2) items).*2).
Proof.
  induction items as [|[c v] items IH]; intros Hnn; [reflexivity|].
  assert (Hv : 0 <= v) by (apply (Hnn c); left).
  rewrite filter_cons, fmap_cons, sum_cons, IH
    by (intros c' v' Hin; apply (Hnn c'); by right).
  cbn [snd]. destruct (decide (0 < v)).
  - rewrite fmap_cons, sum_cons. reflexivity.
  - assert (v == 0) as -> by lra. ring.
Qed.

Lemma some_budget_positive (items : list (string * Q)) :
  (∀ c v, (c, v) ∈ items → 0 <= v) →
  forallb (λ v, Qeq_bool v 0) (items.*2) = false →
  ∃ c v, (c, v) ∈ items ∧ 0 < v.
Proof.
  induction items as [|[c v] items IH]; intros Hnn Hz; [done|].
  cbn [fmap list_fmap forallb snd] in Hz.
  apply andb_false_iff in Hz as [Hz|Hz].
  - exists c, v. split; [left|].
    assert (0 <= v) by (apply (Hnn c); left).
    assert (¬ v == 0) by (intros H'; apply Qeq_bool_iff in H'; congruence).
    lra.
  - destruct IH as (c' & v' & Hin & Hpos); [|done|].
    + intros c' v' Hin. apply (Hnn c'). by right.
    + exists c', v'. split; [by right | done].
Qed.

Lemma sum_positive (l : list Q) (x : Q) :
  Forall (λ y, 0 <= y) l → x ∈ l → 0 < x → 0 < Py.sum l.
Proof.
  induction 1 as [|y l Hy Hl IH]; intros Hin Hx; [inversion Hin|].
  rewrite sum_cons. pose proof (sum_nonneg l Hl) as Hs.
  apply elem_of_cons in Hin as [<-|Hin]; [lra|].
  specialize (IH Hin Hx). lra.
Qed.

(** X18.  Whenever a reachable session shows the budget analysis, the report
    has at least one row, the "Total Budget" of the overall summary is the
    sum of the budgets of the rows and is above zero, and so the percentage
    under "Remaining" is computed (its division is by a positive total). *)
Theorem shown_analysis_has_a_budget (period : budget_period)
    (today : Calendar.date) (s : state) (report : list status_row) :
  reachable s →
  budget_analysis period today s = Some report →
  let summary :=
    overall_summary (budgets s)
      (category_spending (registry s)
         (period_expenses period today (expenses s))) in
  report ≠ []
  ∧ total_budget summary == Py.sum (row_budget <$> report)
  ∧ 0 < total_budget summary
  ∧ delta summary = Some (remaining summary / total_budget summary * 100).
Proof.
  intros Hs Hreport summary.
  destruct (reachable_nonneg s Hs) as [_ Hnn]. unfold Dict.items in Hnn.
  unfold budget_analysis in Hreport.
  destruct (negb _ || forallb _ _) eqn:Eshow; [done|].
  injection Hreport as <-.
  apply orb_false_iff in Eshow as [_ Hz]. unfold Dict.values in Hz.
  destruct (some_budget_positive _ Hnn Hz) as (c & v & Hin & Hpos).
  assert (Hrows :
    (c, v) ∈ filter (λ item : string * Q, 0 < item.2) (budgets s))
    by (by apply list_elem_of_filter).
  assert (Hsum : total_budget summary
                 == Py.sum ((filter (λ item, 0 < item.2) (budgets s)).*2)).
  { cbn [summary overall_summary total_budget]. unfold Dict.values.
    by apply sum_positive_part. }
  assert (Hpos' : 0 < total_budget summary).
  { rewrite Hsum. clear Hsum.
    assert (Hall : Forall (λ x, 0 <= x)
                     ((filter (λ item : string * Q, 0 < item.2) (budgets s)).*2)).
    { apply Forall_fmap, Forall_forall.
      intros [c' v'] [H' _]%list_elem_of_filter. cbn [snd compose] in *.
      by apply Qlt_le_weak. }
    apply (sum_positive _ v); [done| |done].
    apply list_elem_of_fmap. by exists (c, v). }
  split; [|split; [|split; [done|]]].
  - intros Hnil.
    assert (Hb : row_budget <$> budget_status (budgets s)
                   (category_spending (registry s)
                      (period_expenses period today (expenses s))) = [])
      by (by rewrite Hnil).
    rewrite budget_status_budgets in Hb.
    apply fmap_nil_inv in Hb. rewrite Hb in Hrows. inversion Hrows.
  - by rewrite budget_status_budgets.
  - cbn [summary overall_summary delta remaining total_budget] in *.
    by rewrite (proj2 (py_gt_iff _ 0) Hpos').
Qed.

Lemma shown_analysis_has_a_budget_witness :
  let inp := {| new_budget := λ _, 1500; new_category := "";
                new_category_budget := 0; submit_button := false |} in
  ∃ report,
    budget_analysis Monthly 738530%Z
      (run init (handler (Render_budget_page inp) init)) = Some report
    ∧ report ≠ [].
Proof.
  intros inp.
  assert (Hs : reachable (run init (handler (Render_budget_page inp) init))).
  { apply reachable_step; [apply reachable_init|].
    split; [intros c|]; vm_compute; discriminate. }
  destruct (budget_analysis Monthly 738530%Z _) as [report|] eqn:E.
  - exists report. split; [reflexivity|].
    exact (proj1 (shown_analysis_has_a_budget Monthly 738530%Z _ report Hs E)).
  - vm_compute in E. discriminate E.
Defined.

(** ** The chart of budget against actual spending *)

Import Charts.

#[local] Instance by_budget_descending_total : Total by_budget_descending.
Proof.
  intros r1 r2. unfold by_budget_descending.
  destruct (Qlt_le_dec r1.1.2 r2.1.2) as [H|H]; [right; lra | left; lra].
Qed.

#[local] Instance by_budget_descending_trans : Transitive by_budget_descending.
Proof. intros r1 r2 r3. unfold by_budget_descending. lra. Qed.

(** Category and budget of the rows of the chart, before the sort, and of
    the rows of the report. *)
Lemma comparison_rows_report (allocation spending : Dict.t Q)
    (category_expenses : gmap string Q) :
  fst <$> comparison_rows allocation category_expenses
  = (λ row, (row_category row, row_budget row))
      <$> budget_status allocation spending.
Proof.
  unfold comparison_rows, budget_status, Dict.items.
  induction allocation as [|[c b] items IH]; [done|].
  cbn [omap list_omap status_of].
  destruct (Py.gt b 0); [|exact IH].
  cbn [fmap list_fmap fst row_category row_budget]. by rewrite IH.
Qed.

Lemma comparison_rows_no_budget (allocation : Dict.t Q)
    (category_expenses : gmap string Q) :
  forallb (λ v, Qeq_bool v 0) (Dict.values allocation) = true →
  comparison_rows allocation category_expenses = [].
Proof.
  unfold comparison_rows, Dict.items, Dict.values.
  induction allocation as [|[c b] items IH]; [done|].
  cbn [fmap list_fmap forallb snd]. intros [Hb Hz]%andb_true_iff.
  cbn [omap list_omap]. apply Qeq_bool_iff in Hb.
  destruct (Py.gt b 0) eqn:E; [|by apply IH].
  apply py_gt_iff in E. lra.
Qed.

(** X19.  The chart "Budget vs. Actual" and the monthly budget report of a
    reachable session, when the clock readings of the chart fall in the
    month of the report.  The chart is drawn only with at least one expense
    and one budget entry; its rows are sorted by budget, largest first.  If
    the report is replaced by the hint (every budget is zero) the chart is
    empty.  Otherwise the chart has exactly the categories and budgets of the
    report, and for a category without an expense in the month both show 0,
    for a category with a single expense in the month both show its
    amount. *)
Theorem chart_agrees_with_report (today : Calendar.date)
    (current_month current_year : Z) (s : state)
    (chart : list (string * Q * Q)) :
  reachable s →
  current_month = Calendar.month today →
  current_year = Calendar.year today →
  plot_budget_vs_actual current_month current_year s = Some chart →
  expenses s ≠ [] ∧ budgets s ≠ []
  ∧ StronglySorted by_budget_descending chart
  ∧ match budget_analysis Monthly today s with
    | None => chart = []
    | Some report =>
        fst <$> chart
        ≡ₚ (λ row, (row_category row, row_budget row)) <$> report
        ∧ ∀ c b a, (c, b, a) ∈ chart →
            ∃ row, row ∈ report
              ∧ row_category row = c ∧ row_budget row = b
              ∧ (filter (λ e, category e = c)
                        (period_expenses Monthly today (expenses s)) = [] →
                 a = 0 ∧ row_spent row = 0)
              ∧ (∀ e, filter (λ e, category e = c)
                             (period_expenses Monthly today (expenses s)) = [e] →
                      a == amount e ∧ row_spent row == amount e)
    end.
Proof.
  intros Hs -> -> Hchart.
  pose proof (reachable_registry_invariant s Hs) as Hinv.
  unfold registry_invariant, Dict.keys in Hinv.
  unfold plot_budget_vs_actual in Hchart.
  destruct (negb _ || negb _) eqn:Eshow; [done|].
  apply orb_false_iff in Eshow as [He Hb].
  injection Hchart as <-.
  set (month := filter (λ e, Calendar.month (date e) = Calendar.month today
                             ∧ Calendar.year (date e) = Calendar.year today)
                       (expenses s)).
  set (ce := DataVisualization.groupby_category_sum month).
  split; [by destruct (expenses s)|].
  split; [by destruct (budgets s)|].
  split; [apply StronglySorted_merge_sort; apply _|].
  unfold budget_analysis.
  destruct (negb (Py.truthy_list (budgets s))
            || forallb (λ v, Qeq_bool v 0) (Dict.values (budgets s))) eqn:Ez.
  - apply orb_true_iff in Ez as [Ez|Ez].
    + rewrite Ez in Hb. discriminate Hb.
    + by rewrite comparison_rows_no_budget.
  - cbn [period_expenses]. fold month.
    set (spending := category_spending (registry s) month).
    split.
    + rewrite merge_sort_Permutation.
      by rewrite (comparison_rows_report _ spending).
    + intros c b a Hin. rewrite merge_sort_Permutation in Hin.
      unfold comparison_rows, Dict.items in Hin.
      apply list_elem_of_omap in Hin as ([c' b'] & Hitem & Hrow).
      destruct (Py.gt b' 0) eqn:Eb; [|done].
      injection Hrow as -> -> <-. apply py_gt_iff in Eb.
      assert (Hc : c ∈ registry s).
      { apply Hinv. apply list_elem_of_fmap. by exists (c, b). }
      eexists. split.
      { unfold budget_status, Dict.items. apply list_elem_of_omap.
        exists (c, b). split; [exact Hitem|].
        apply status_of_Some. split; [exact Eb | reflexivity]. }
      cbn [row_category row_budget row_spent].
      split; [done|]. split; [done|].
      unfold spending. rewrite category_spending_get, decide_True by done.
      unfold ce. rewrite groupby_category_sum_lookup.
      split.
      * intros Hnil. rewrite Hnil. split; [|done].
        rewrite decide_False; [done|]. intros Hcat.
        apply list_elem_of_fmap in Hcat as (e & -> & He').
        by apply (filter_nil_not_elem_of _ _ e) in Hnil.
      * intros e Hone. rewrite Hone.
        assert (He' : e ∈ filter (λ e, category e = c) month)
          by (rewrite Hone; left).
        apply list_elem_of_filter in He' as [<- He'].
        rewrite decide_True by (apply list_elem_of_fmap; by exists e).
        cbn [default]. unfold ExpenseTracker.total, Py.sum.
        cbn [fmap list_fmap foldl]. unfold id. split; ring.
Qed.

Lemma chart_agrees_with_report_witness :
  let inp := {| new_budget := λ _, 1500; new_category := "";
                new_category_budget := 0; submit_button := false |} in
  let s0 :=
    run init (handler (Submit_expense 738521%Z 250 "Groceries" "market") init) in
  let s := run s0 (handler (Render_budget_page inp) s0) in
  ∃ chart,
    plot_budget_vs_actual (Calendar.month 738530%Z) (Calendar.year 738530%Z) s
    = Some chart
    ∧ StronglySorted by_budget_descending chart.
Proof.
  intros inp s0 s.
  assert (Hs : reachable s).
  { apply reachable_step.
    - apply reachable_step; [apply reachable_init|].
      split; [vm_compute; discriminate | in_list].
    - split; [intros c|]; vm_compute; discriminate. }
  destruct (plot_budget_vs_actual _ _ s) as [chart|] eqn:E.
  - exists chart. split; [reflexivity|].
    destruct (chart_agrees_with_report 738530%Z _ _ s chart Hs eq_refl eq_refl E)
      as (_ & _ & Hsorted & _).
    exact Hsorted.
  - vm_compute in E. discriminate E.
Defined.

(** ** Two views of the allocation *)

(** X20.  The pie chart of the allocation is drawn from the same categories
    as the budget report, in the same order and with the same budgets: those
    whose budget is above zero, in the order in which they entered the
    allocation.  The pie chart is replaced by a hint exactly when the report
    has no row. *)
Theorem pie_and_report_show_the_same_budgets (allocation spending : Dict.t Q) :
  Dict.items (active_budgets allocation)
  = (λ row, (row_category row, row_budget row))
      <$> budget_status allocation spending
  ∧ Dict.keys (active_budgets allocation) `sublist_of` Dict.keys allocation
  ∧ (Py.truthy_list (active_budgets allocation) = false
     ↔ budget_status allocation spending = []).
Proof.
  assert (Hitems : Dict.items (active_budgets allocation)
                   = (λ row, (row_category row, row_budget row))
                       <$> budget_status allocation spending).
  { unfold active_budgets, budget_status, Dict.items.
    induction allocation as [|[c b] items IH]; [done|].
    rewrite filter_cons. cbn [omap list_omap status_of snd].
    destruct (Py.gt b 0) eqn:E.
    - rewrite decide_True by done. cbn [fmap list_fmap]. by rewrite IH.
    - rewrite decide_False by (cbn [snd]; congruence). exact IH. }
  split; [exact Hitems|]. split.
  - unfold active_budgets, Dict.items, Dict.keys.
    apply fmap_sublist, sublist_filter.
  - unfold Dict.items in Hitems. rewrite Hitems.
    by destruct (budget_status allocation spending).
Qed.

(** ** The week of the budget analysis *)

Lemma weekday_range (d : Calendar.date) : (0 ≤ weekday d < 7)%Z.
Proof. unfold weekday. apply Z.mod_pos_bound. lia. Qed.

(** X21.  The weekly budget period starts on the Monday on or before today,
    at most six days back, and has no end: an expense is counted in the
    weekly analysis exactly when it is dated on that Monday or later, so
    today's expenses are always counted and so is any expense dated after the
    Sunday that the page prints as the end of the week. *)
Theorem weekly_period_starts_on_monday (today : Calendar.date)
    (df : list expense) :
  let start_of_week := Calendar.minus_days today (weekday today) in
  weekday start_of_week = 0%Z
  ∧ (today - 6 ≤ start_of_week ≤ today)%Z
  ∧ (∀ e, e ∈ period_expenses Weekly today df
          ↔ e ∈ df ∧ (start_of_week ≤ date e)%Z)
  ∧ (∀ e, e ∈ df → (today ≤ date e)%Z → e ∈ period_expenses Weekly today df).
Proof.
  intros start_of_week.
  pose proof (weekday_range today) as Hw.
  assert (Hstart : (today - 6 ≤ start_of_week ≤ today)%Z)
    by (unfold start_of_week, Calendar.minus_days; lia).
  split; [|split; [done|split]].
  - unfold start_of_week, Calendar.minus_days, weekday.
    replace (today - (today + 6) mod 7 + 6)%Z
      with (7 * ((today + 6) / 7))%Z
      by (pose proof (Z.div_mod (today + 6) 7 ltac:(lia)); lia).
    rewrite Z.mul_comm. by apply Z.mod_mul.
  - intros e. cbn [period_expenses]. rewrite list_elem_of_filter.
    fold start_of_week. tauto.
  - intros e He Hd. cbn [period_expenses]. apply list_elem_of_filter.
    fold start_of_week. split; [lia | done].
Qed.
